(** * Canteen reservations: the reservation validator and the restriction cascade

    A shallow embedding of [src/services/reservation_service.py],
    [src/repository/repo.py] and [src/domain/models.py], and theorems about
    the validation pipeline of [create_reservation], about
    [cancel_reservation], and about the cascade that a new restriction
    triggers.

    Conventions of the embedding.
    - A Python [date] is its proleptic ordinal, an integer; comparisons and
      equality of dates are those of the ordinals.
    - A Python naive [time] is a record of its four fields.  A [datetime] is
      the number of microseconds since the start of ordinal day 0, so that
      [datetime.combine] and [+ timedelta(minutes=n)] are plain arithmetic
      (the bound [datetime.max] is not modelled).
    - A DynamoDB table is a finite map from the key [id] to the item.
    - [uuid.uuid4()] and [date.today()] are inputs of the operations that
      call them.
    - [str.lower()], the Unicode-aware function of the standard library, is
      a parameter [lower] of the functions that reach it: what is proved of
      them is proved for every such function.  Only the scenarios, whose
      labels are ASCII text, are evaluated with a function of their own. *)

From Stdlib Require Import ZArith NArith Ascii String Lia.
From stdpp Require Import base option list strings gmap fin_maps.

Local Open Scope Z_scope.

(** ** Dates and times *)

Record pytime := mk_time {
  hour : Z;
  minute : Z;
  second : Z;
  microsecond : Z
}.

(** [time(h, m)] *)
Definition hm (h m : Z) : pytime := mk_time h m 0 0.

(** A naive [time] as Python constructs it. *)
Definition valid_time (t : pytime) : Prop :=
  0 <= hour t < 24 /\ 0 <= minute t < 60 /\
  0 <= second t < 60 /\ 0 <= microsecond t < 1000000.

Definition time_of_day (t : pytime) : Z :=
  ((hour t * 60 + minute t) * 60 + second t) * 1000000 + microsecond t.

Definition day_us : Z := 86400000000.

(** [datetime.combine(d, t)] *)
Definition combine (d : Z) (t : pytime) : Z := d * day_us + time_of_day t.

(** [timedelta(minutes=n)] *)
Definition minutes (n : Z) : Z := n * 60000000.

(** [t.strftime("%H:%M")], kept as the pair the string spells, and
    [time.fromisoformat] of such a string. *)
Definition strftime_HM (t : pytime) : Z * Z := (hour t, minute t).
Definition fromisoformat (x : Z * Z) : pytime := hm x.1 x.2.

(** ** Domain models ([src/domain/models.py]) *)

Module WorkingHour.
Record t := mk { meal : string; from_time : pytime; to_time : pytime }.
End WorkingHour.

Module Student.
Record t := mk { id : option string; name : string; email : string;
                 isAdmin : bool }.
End Student.

Module Canteen.
Record t := mk { id : option string; name : string; location : string;
                 capacity : Z; workingHours : list WorkingHour.t }.
End Canteen.

Module Reservation.
Record t := mk { id : option string; studentId : string;
                 canteenId : string; date : Z; time : pytime;
                 duration : Z; status : string }.
End Reservation.

Module Restriction.
Record t := mk { id : option string; canteenId : string; startDate : Z;
                 endDate : Z; workingHours : list WorkingHour.t }.
End Restriction.

(** The fields of [CreateReservationDTO] that the service reads. *)
Module CreateReservationDTO.
Record t := mk { studentId : string; canteenId : string; date : Z;
                 time : pytime; duration : Z }.
End CreateReservationDTO.

Definition Active : string := "Active".
Definition Cancelled : string := "Cancelled".

(** ** The store ([src/repository/repo.py]) *)

(** An item of the [Reservations] table, without its key: [model_dump]
    followed by [item["time"] = data.time.strftime("%H:%M")]. *)
Module Item.
Record t := mk { studentId : string; canteenId : string; date : Z;
                 time : Z * Z; duration : Z; status : string }.
End Item.

(** One [reservations_table.put_item] call. *)
Inductive Write := PutReservation (key : string) (item : Item.t).

(** The three tables, the restrictions, and the sequence of puts made on the
    reservations table so far (an observer of the writes, not a table). *)
Record Store := mk_store {
  students_table : gmap string Student.t;
  canteens_table : gmap string Canteen.t;
  reservations_table : gmap string Item.t;
  restrictions : list Restriction.t;
  put_log : list Write
}.

(** ** Errors and the state-and-exception monad *)

(** One constructor per [raise] of the service, named after the error kind
    of the contract where the kind has a single raise site. *)
Inductive Error :=
  | PastDate            (* ValueError, _validate_reservation_payload *)
  | BadDuration         (* ValueError *)
  | BadMinute           (* ValueError *)
  | StudentNotFound     (* ValueError *)
  | CanteenNotFound     (* ValueError *)
  | Conflict            (* ValueError, _check_student_overlap *)
  | NoMealType          (* ValueError, create_reservation *)
  | QuotaExceeded       (* ValueError, _check_meal_type_limit *)
  | Closed              (* ValueError, _check_capacity, is_open *)
  | CapacityExceeded    (* ValueError, _check_capacity, remaining_capacity *)
  | NotFound            (* ValueError, cancel_reservation *)
  | Forbidden           (* PermissionError *)
  | AlreadyCancelled    (* ValueError, cancel_reservation *)
  | InvalidRange        (* restriction: endDate < startDate *)
  | OutsideNominalHours (* restriction: window not inside a nominal one *)
  | RestrictionOverlap. (* restriction: date ranges intersect *)

Inductive result (A : Type) :=
  | Ok (a : A)
  | Raise (e : Error).
Arguments Ok {A} a.
Arguments Raise {A} e.

Definition M (A : Type) : Type := Store -> result A * Store.

#[global] Instance M_ret : MRet M := fun A a s => (Ok a, s).
#[global] Instance M_bind : MBind M := fun A B f m s =>
  match m s with
  | (Ok a, s') => f a s'
  | (Raise e, s') => (Raise e, s')
  end.

Definition raise {A} (e : Error) : M A := fun s => (Raise e, s).
Definition gets {A} (f : Store -> A) : M A := fun s => (Ok (f s), s).
Definition modify (f : Store -> Store) : M unit := fun s => (Ok tt, f s).

Definition lift {A} (r : result A) : M A := fun s => (r, s).

(** The model built from the item stored under [key] (its keyword
    arguments are the item, the time parsed back). *)
Definition parse_item (key : string) (it : Item.t) : Reservation.t :=
  Reservation.mk (Some key) (Item.studentId it) (Item.canteenId it)
    (Item.date it) (fromisoformat (Item.time it)) (Item.duration it)
    (Item.status it).

(** [data.model_dump()] with the time serialised, without the key. *)
Definition dump_item (r : Reservation.t) : Item.t :=
  Item.mk (Reservation.studentId r) (Reservation.canteenId r)
    (Reservation.date r) (strftime_HM (Reservation.time r))
    (Reservation.duration r) (Reservation.status r).

(** [reservations_table.put_item(Item=item)] with [item["id"] = key]. *)
Definition store_put (key : string) (it : Item.t) (s : Store) : Store :=
  mk_store (students_table s) (canteens_table s)
    (<[key := it]> (reservations_table s)) (restrictions s)
    (put_log s ++ [PutReservation key it]).

Definition put_reservation (key : string) (it : Item.t) : M unit :=
  modify (store_put key it).

(** The items of the reservations table, parsed, in the order a query
    returns them. *)
Definition scan_reservations (s : Store) : list Reservation.t :=
  (fun kv => parse_item kv.1 kv.2) <$> map_to_list (reservations_table s).

Definition set_status (st : string) (r : Reservation.t) : Reservation.t :=
  Reservation.mk (Reservation.id r) (Reservation.studentId r)
    (Reservation.canteenId r) (Reservation.date r) (Reservation.time r)
    (Reservation.duration r) st.

Module DynamoRepository.

Definition get_student_by_id (student_id : string)
  : M (option Student.t) :=
  gets (fun s =>
    (fun st => Student.mk (Some student_id) (Student.name st)
                 (Student.email st) (Student.isAdmin st))
      <$> students_table s !! student_id).

Definition get_canteen_by_id (canteen_id : string)
  : M (option Canteen.t) :=
  gets (fun s =>
    (fun c => Canteen.mk (Some canteen_id) (Canteen.name c)
                (Canteen.location c) (Canteen.capacity c)
                (Canteen.workingHours c))
      <$> canteens_table s !! canteen_id).

Definition add_reservation (new_id : string) (data : Reservation.t)
  : M Reservation.t :=
  put_reservation new_id (dump_item data);;
  mret (Reservation.mk (Some new_id) (Reservation.studentId data)
          (Reservation.canteenId data) (Reservation.date data)
          (Reservation.time data) (Reservation.duration data)
          (Reservation.status data)).

Definition get_reservation_by_id (reservation_id : string)
  : M (option Reservation.t) :=
  gets (fun s => parse_item reservation_id
                   <$> reservations_table s !! reservation_id).

Definition get_reservations_by_student_id (student_id : string)
  : M (list Reservation.t) :=
  gets (fun s =>
    filter (fun r => Reservation.studentId r = student_id)
      (scan_reservations s)).

Definition cancel_reservation (reservation_id : string)
  : M (option Reservation.t) :=
  reservation ← get_reservation_by_id reservation_id;
  match reservation with
  | None => mret None
  | Some reservation =>
      let reservation := set_status Cancelled reservation in
      put_reservation reservation_id (dump_item reservation);;
      mret (Some reservation)
  end.

(** The caller passes [canteen.id], an [Optional[str]]. *)
Definition get_active_reservations_by_canteen_and_date
    (canteen_id : option string) (reservation_date : Z)
  : M (list Reservation.t) :=
  gets (fun s =>
    filter (fun r => Some (Reservation.canteenId r) = canteen_id
                     /\ Reservation.status r = Active
                     /\ Reservation.date r = reservation_date)
      (scan_reservations s)).

(** Modelled from the spec: [get_restrictions_by_canteen_id] is called by
    the service and by the tests but is not defined in the repository
    class under [src/]; the contract lists it as
    [listRestrictionsByCanteen(canteenId) -> [Restriction]].  The
    restrictions are kept in insertion order. *)
Definition get_restrictions_by_canteen_id (canteen_id : option string)
  : M (list Restriction.t) :=
  gets (fun s =>
    filter (fun r => Some (Restriction.canteenId r) = canteen_id)
      (restrictions s)).

End DynamoRepository.

(** ** The reservation service ([src/services/reservation_service.py]) *)

(** [str.lower()] belongs to Python's standard library and follows the
    Unicode case mapping; the service only calls it, on the label of a
    working hour.  The model takes it as a parameter, as it does
    [uuid.uuid4()] and [date.today()]: every function that reaches
    [_get_meal_type] is defined for an arbitrary [lower], and what is proved
    of it holds for whichever function [str.lower()] is. *)
Class Lower := lower : string -> string.

(** Truth value of an [Optional[str]]: [None] and the empty string are
    false. *)
Definition truthy (o : option string) : bool :=
  match o with
  | Some s => negb (bool_decide (s = EmptyString))
  | None => false
  end.

(** The test [a_start < b_end and a_end > b_start] of lines 41 and 78. *)
Definition overlaps (a_start a_end b_start b_end : Z) : bool :=
  (a_start <? b_end) && (a_end >? b_start).

(** The test [meal_start <= slot_start and slot_end <= meal_end] of line 64. *)
Definition within (slot_start slot_end window_start window_end : Z) : bool :=
  (window_start <=? slot_start) && (slot_end <=? window_end).

Definition res_start (res : Reservation.t) : Z :=
  combine (Reservation.date res) (Reservation.time res).
Definition res_end (res : Reservation.t) : Z :=
  res_start res + minutes (Reservation.duration res).

Module ReservationService.
Import DynamoRepository.

Definition _validate_reservation_payload (today : Z)
    (payload : CreateReservationDTO.t) : M (pytime * Canteen.t) :=
  if CreateReservationDTO.date payload <? today then raise PastDate else
  if negb (bool_decide (CreateReservationDTO.duration payload ∈ [30; 60]))
  then raise BadDuration else
  let reservation_time := CreateReservationDTO.time payload in
  if negb (bool_decide (minute reservation_time ∈ [0; 30]))
  then raise BadMinute else
  student ← get_student_by_id (CreateReservationDTO.studentId payload);
  if negb (bool_decide (is_Some student)) then raise StudentNotFound else
  canteen ← get_canteen_by_id (CreateReservationDTO.canteenId payload);
  match canteen with
  | None => raise CanteenNotFound
  | Some canteen => mret (reservation_time, canteen)
  end.

(** The loop of [_check_student_overlap]. *)
Fixpoint student_overlap_loop (student_reservations : list Reservation.t)
    (requested_start requested_end : Z) : result unit :=
  match student_reservations with
  | [] => Ok tt
  | res :: rest =>
      if bool_decide (Reservation.status res ≠ Active)
      then student_overlap_loop rest requested_start requested_end
      else if overlaps requested_start requested_end
                (res_start res) (res_end res)
      then Raise Conflict
      else student_overlap_loop rest requested_start requested_end
  end.

Definition _check_student_overlap (student_id : string)
    (requested_start requested_end : Z) : M unit :=
  student_reservations ← get_reservations_by_student_id student_id;
  lift (student_overlap_loop student_reservations
          requested_start requested_end).

(** The first window with [meal_start <= requested_dt < meal_end];
    [dummy_date] is [date.today()]. *)
Fixpoint _get_meal_type {str_lower : Lower}
    (dummy_date : Z) (reservation_time : pytime)
    (working_hours : list WorkingHour.t) : option string :=
  match working_hours with
  | [] => None
  | h :: rest =>
      let requested_dt := combine dummy_date reservation_time in
      let meal_start := combine dummy_date (WorkingHour.from_time h) in
      let meal_end := combine dummy_date (WorkingHour.to_time h) in
      if (meal_start <=? requested_dt) && (requested_dt <? meal_end)
      then Some (lower (WorkingHour.meal h))
      else _get_meal_type dummy_date reservation_time rest
  end.

(** The counting loop of [_check_meal_type_limit]. *)
Fixpoint meal_type_count_loop {str_lower : Lower} (today : Z)
    (todays_reservations : list Reservation.t) (meal_type : string)
    (meal_type_count : Z) : M Z :=
  match todays_reservations with
  | [] => mret meal_type_count
  | res :: rest =>
      canteen ← get_canteen_by_id (Reservation.canteenId res);
      match canteen with
      | Some canteen =>
          let existing_meal_type :=
            _get_meal_type today (Reservation.time res)
              (Canteen.workingHours canteen) in
          if truthy existing_meal_type
             && bool_decide (existing_meal_type = Some meal_type)
          then meal_type_count_loop today rest meal_type
                 (meal_type_count + 1)
          else meal_type_count_loop today rest meal_type meal_type_count
      | None => meal_type_count_loop today rest meal_type meal_type_count
      end
  end.

Definition _check_meal_type_limit {str_lower : Lower}
    (today : Z) (student_id : string)
    (reservation_date : Z) (meal_type : string) : M unit :=
  student_reservations ← get_reservations_by_student_id student_id;
  let todays_reservations :=
    filter (fun res => Reservation.status res = Active
                       /\ Reservation.date res = reservation_date)
      student_reservations in
  meal_type_count ←
    meal_type_count_loop today todays_reservations meal_type 0;
  if meal_type_count >=? 2 then raise QuotaExceeded else mret tt.

(** The test of [for r in restrictions: if r.startDate <= date <=
    r.endDate: ...; break]. *)
Definition covers (date : Z) (r : Restriction.t) : bool :=
  (Restriction.startDate r <=? date) && (date <=? Restriction.endDate r).

Definition window_holds (date slot_start slot_end : Z)
    (h : WorkingHour.t) : bool :=
  within slot_start slot_end
    (combine date (WorkingHour.from_time h))
    (combine date (WorkingHour.to_time h)).

(** The counting loop of [_check_capacity]. *)
Fixpoint capacity_count_loop (active_reservations : list Reservation.t)
    (slot_start slot_end : Z) (current_reservations_in_slot : Z) : Z :=
  match active_reservations with
  | [] => current_reservations_in_slot
  | res :: rest =>
      if overlaps slot_start slot_end (res_start res) (res_end res)
      then capacity_count_loop rest slot_start slot_end
             (current_reservations_in_slot + 1)
      else capacity_count_loop rest slot_start slot_end
             current_reservations_in_slot
  end.

Definition working_hours_to_check (restrictions : list Restriction.t)
    (canteen : Canteen.t) (date : Z) : list WorkingHour.t :=
  match List.find (covers date) restrictions with
  | Some active_restriction => Restriction.workingHours active_restriction
  | None => Canteen.workingHours canteen
  end.

Definition _check_capacity (canteen : Canteen.t) (date : Z)
    (start_time : pytime) (duration : Z) : M unit :=
  let slot_start := combine date start_time in
  let slot_end := slot_start + minutes duration in
  restrictions ← get_restrictions_by_canteen_id (Canteen.id canteen);
  let is_open :=
    existsb (window_holds date slot_start slot_end)
      (working_hours_to_check restrictions canteen date) in
  if negb is_open then raise Closed else
  active_reservations ←
    get_active_reservations_by_canteen_and_date (Canteen.id canteen) date;
  let current_reservations_in_slot :=
    capacity_count_loop active_reservations slot_start slot_end 0 in
  let remaining_capacity :=
    Canteen.capacity canteen - current_reservations_in_slot in
  if remaining_capacity <=? 0 then raise CapacityExceeded else mret tt.

Definition create_reservation {str_lower : Lower} (today : Z) (new_id : string)
    (payload : CreateReservationDTO.t) : M Reservation.t :=
  '(reservation_time, canteen) ← _validate_reservation_payload today payload;
  let requested_start :=
    combine (CreateReservationDTO.date payload) reservation_time in
  let requested_end :=
    requested_start + minutes (CreateReservationDTO.duration payload) in
  _check_student_overlap (CreateReservationDTO.studentId payload)
    requested_start requested_end;;
  let meal_type :=
    _get_meal_type today reservation_time (Canteen.workingHours canteen) in
  match meal_type with
  | None => raise NoMealType
  | Some meal_type =>
      if negb (truthy (Some meal_type)) then raise NoMealType else
      _check_meal_type_limit today (CreateReservationDTO.studentId payload)
        (CreateReservationDTO.date payload) meal_type;;
      _check_capacity canteen (CreateReservationDTO.date payload)
        reservation_time (CreateReservationDTO.duration payload);;
      let new_reservation :=
        Reservation.mk None (CreateReservationDTO.studentId payload)
          (CreateReservationDTO.canteenId payload)
          (CreateReservationDTO.date payload) reservation_time
          (CreateReservationDTO.duration payload) Active in
      add_reservation new_id new_reservation
  end.

Definition cancel_reservation (reservation_id student_id : string)
    : M (option Reservation.t) :=
  reservation ← get_reservation_by_id reservation_id;
  match reservation with
  | None => raise NotFound
  | Some reservation =>
      if bool_decide (Reservation.studentId reservation ≠ student_id)
      then raise Forbidden else
      if bool_decide (Reservation.status reservation = Cancelled)
      then raise AlreadyCancelled else
      DynamoRepository.cancel_reservation reservation_id
  end.

End ReservationService.

(** ** The restriction engine *)

(** [src/dto/restriction_dto.py] *)
Module CreateRestrictionDTO.
Record t := mk { startDate : Z; endDate : Z;
                 workingHours : list WorkingHour.t }.
End CreateRestrictionDTO.

Module CanteenService.
Import DynamoRepository.

(** Modelled from the spec: a supplied window lies inside a nominal one,
    [within] on the times of day, whatever the meal labels. *)
Definition inside_nominal (nominal : list WorkingHour.t)
    (h : WorkingHour.t) : bool :=
  existsb (fun n =>
    within (time_of_day (WorkingHour.from_time h))
           (time_of_day (WorkingHour.to_time h))
           (time_of_day (WorkingHour.from_time n))
           (time_of_day (WorkingHour.to_time n))) nominal.

(** Modelled from the spec: two inclusive date ranges intersect. *)
Definition ranges_intersect (start1 end1 start2 end2 : Z) : bool :=
  (start1 <=? end2) && (start2 <=? end1).

(** Modelled from the spec: the reservation's slot is inside one of the
    windows, the containment test of the validator. *)
Definition admissible (working_hours : list WorkingHour.t)
    (res : Reservation.t) : bool :=
  existsb (ReservationService.window_holds (Reservation.date res)
             (res_start res) (res_end res)) working_hours.

(** Modelled from the spec: [addRestriction], which the repository class
    under [src/] does not define. *)
Definition add_restriction (new_id : string) (r : Restriction.t)
  : M Restriction.t :=
  let stored :=
    Restriction.mk (Some new_id) (Restriction.canteenId r)
      (Restriction.startDate r) (Restriction.endDate r)
      (Restriction.workingHours r) in
  modify (fun s =>
    mk_store (students_table s) (canteens_table s) (reservations_table s)
      (restrictions s ++ [stored]) (put_log s));;
  mret stored.

(** Modelled from the spec: the Active reservations of the canteen whose
    date is in the inclusive range, as one snapshot. *)
Definition affected_reservations (canteen_id : string)
    (start_date end_date : Z) : M (list Reservation.t) :=
  gets (fun s =>
    filter (fun r => Reservation.canteenId r = canteen_id
                     /\ Reservation.status r = Active
                     /\ start_date <= Reservation.date r <= end_date)
      (scan_reservations s)).

(** Modelled from the spec: step 6 of [createRestriction]; the
    notification is fire-and-forget and leaves the store alone. *)
Fixpoint cascade (working_hours : list WorkingHour.t)
    (affected : list Reservation.t) : M unit :=
  match affected with
  | [] => mret tt
  | res :: rest =>
      if admissible working_hours res then cascade working_hours rest
      else
        match Reservation.id res with
        | Some reservation_id =>
            DynamoRepository.cancel_reservation reservation_id;;
            cascade working_hours rest
        | None => cascade working_hours rest
        end
  end.

(** Modelled from the spec: [createRestriction(actorId, canteenId,
    payload)], section 4.3, steps 1 to 7; [canteen_service.py] is
    imported by the tests but is not under [src/].  The canteen is
    resolved where step 3 first needs it. *)
Definition create_restriction (new_id : string)
    (actor_id canteen_id : string) (payload : CreateRestrictionDTO.t)
  : M Restriction.t :=
  actor ← get_student_by_id actor_id;
  if negb (from_option Student.isAdmin false actor) then raise Forbidden
  else
  if CreateRestrictionDTO.endDate payload
     <? CreateRestrictionDTO.startDate payload
  then raise InvalidRange else
  canteen ← get_canteen_by_id canteen_id;
  match canteen with
  | None => raise CanteenNotFound
  | Some canteen =>
      if negb (forallb (inside_nominal (Canteen.workingHours canteen))
                 (CreateRestrictionDTO.workingHours payload))
      then raise OutsideNominalHours else
      existing ← get_restrictions_by_canteen_id (Some canteen_id);
      if existsb (fun r =>
           ranges_intersect (CreateRestrictionDTO.startDate payload)
             (CreateRestrictionDTO.endDate payload)
             (Restriction.startDate r) (Restriction.endDate r)) existing
      then raise RestrictionOverlap else
      restriction ← add_restriction new_id
        (Restriction.mk None canteen_id
           (CreateRestrictionDTO.startDate payload)
           (CreateRestrictionDTO.endDate payload)
           (CreateRestrictionDTO.workingHours payload));
      affected ← affected_reservations canteen_id
        (CreateRestrictionDTO.startDate payload)
        (CreateRestrictionDTO.endDate payload);
      cascade (CreateRestrictionDTO.workingHours payload) affected;;
      mret restriction
  end.

(** Modelled from the spec: removal of a restriction as the test
    [test_delete_restriction_does_not_uncancel] performs it, by deleting
    the entry of that id from the restrictions. *)
Definition delete_restriction (restriction_id : option string) : M unit :=
  modify (fun s =>
    mk_store (students_table s) (canteens_table s) (reservations_table s)
      (filter (fun r => Restriction.id r ≠ restriction_id)
         (restrictions s))
      (put_log s)).

End CanteenService.

(** ** The contract of the validator, in the words of section 4 *)

(** The numbered step of [createReservation] at which an error is raised
    (0 for the errors of the other operations). *)
Definition step (e : Error) : nat :=
  match e with
  | PastDate => 1
  | BadDuration => 2
  | BadMinute => 3
  | StudentNotFound | CanteenNotFound => 4
  | Conflict => 5
  | NoMealType => 6
  | QuotaExceeded => 7
  | Closed => 8
  | CapacityExceeded => 9
  | _ => 0
  end%nat.

(** The run was not stopped by a check of a step before [n]. *)
Definition passes_steps_before {A} (n : nat) (r : result A) : Prop :=
  match r with
  | Ok _ => True
  | Raise e => (n <= step e)%nat
  end.

(** [classifyMeal(time, hours)]: the label of the first window with
    [windowStart <= time < windowEnd], as [str.lower()] returns it (labels
    compare without regard to case). *)
Definition classifyMeal {str_lower : Lower}
    (t : pytime) (hours : list WorkingHour.t)
  : option string :=
  (fun h => lower (WorkingHour.meal h)) <$>
    List.find (fun h =>
      (time_of_day (WorkingHour.from_time h) <=? time_of_day t)
      && (time_of_day t <? time_of_day (WorkingHour.to_time h))) hours.

Definition requested_start (p : CreateReservationDTO.t) : Z :=
  combine (CreateReservationDTO.date p) (CreateReservationDTO.time p).
Definition requested_end (p : CreateReservationDTO.t) : Z :=
  requested_start p + minutes (CreateReservationDTO.duration p).

(** An Active reservation of the requesting student whose half-open
    interval overlaps the requested one. *)
Definition conflicts_with (p : CreateReservationDTO.t) (r : Reservation.t)
  : Prop :=
  Reservation.studentId r = CreateReservationDTO.studentId p
  /\ Reservation.status r = Active
  /\ requested_start p < res_end r /\ res_start r < requested_end p.

(** The Active reservations at the requested canteen and date that overlap
    the requested interval. *)
Definition overlapping_in_slot (s : Store) (p : CreateReservationDTO.t)
  : list Reservation.t :=
  filter (fun r =>
      Reservation.canteenId r = CreateReservationDTO.canteenId p
      /\ Reservation.status r = Active
      /\ Reservation.date r = CreateReservationDTO.date p
      /\ requested_start p < res_end r /\ res_start r < requested_end p)
    (scan_reservations s).

(** The meal of a stored reservation, classified against the nominal hours
    of its own canteen. *)
Definition meal_of {str_lower : Lower}
    (s : Store) (r : Reservation.t) : option string :=
  c ← canteens_table s !! Reservation.canteenId r;
  classifyMeal (Reservation.time r) (Canteen.workingHours c).

(** The student's Active reservations on the requested date that are
    classified to meal [m]. *)
Definition same_meal {str_lower : Lower}
    (s : Store) (p : CreateReservationDTO.t) (m : string)
  : list Reservation.t :=
  filter (fun r =>
      Reservation.studentId r = CreateReservationDTO.studentId p
      /\ Reservation.status r = Active
      /\ Reservation.date r = CreateReservationDTO.date p
      /\ meal_of s r = Some m)
    (scan_reservations s).

(** A restriction of the canteen whose inclusive range covers the date. *)
Definition covering (s : Store) (canteen_id : string) (date : Z)
    (r : Restriction.t) : Prop :=
  r ∈ restrictions s /\ Restriction.canteenId r = canteen_id
  /\ Restriction.startDate r <= date <= Restriction.endDate r.

(** The effective hours of the canteen on the date, as the code picks
    them. *)
Definition effective_hours (s : Store) (canteen_id : string)
    (c : Canteen.t) (date : Z) : list WorkingHour.t :=
  ReservationService.working_hours_to_check
    (filter (fun r => Some (Restriction.canteenId r) = Some canteen_id)
       (restrictions s))
    c date.

(** The requested slot is fully contained in the window. *)
Definition slot_within (p : CreateReservationDTO.t) (h : WorkingHour.t)
  : Prop :=
  combine (CreateReservationDTO.date p) (WorkingHour.from_time h)
    <= requested_start p
  /\ requested_end p
    <= combine (CreateReservationDTO.date p) (WorkingHour.to_time h).

(** The slot of a stored reservation is fully contained in the window. *)
Definition res_within (r : Reservation.t) (h : WorkingHour.t) : Prop :=
  combine (Reservation.date r) (WorkingHour.from_time h) <= res_start r
  /\ res_end r <= combine (Reservation.date r) (WorkingHour.to_time h).

(** The status of the reservation stored under [key]. *)
Definition status_of (s : Store) (key : string) : option string :=
  Item.status <$> reservations_table s !! key.

(** ** Values the operations produce *)

(** The canteen read back from the item stored under [key]. *)
Definition with_id (key : string) (c : Canteen.t) : Canteen.t :=
  Canteen.mk (Some key) (Canteen.name c) (Canteen.location c)
    (Canteen.capacity c) (Canteen.workingHours c).

#[global] Instance conflicts_with_dec p r : Decision (conflicts_with p r).
Proof. unfold conflicts_with. apply _. Defined.

(** The stored reservation that a successful [create_reservation] adds. *)
Definition new_item (p : CreateReservationDTO.t) : Item.t :=
  Item.mk (CreateReservationDTO.studentId p)
    (CreateReservationDTO.canteenId p) (CreateReservationDTO.date p)
    (strftime_HM (CreateReservationDTO.time p))
    (CreateReservationDTO.duration p) Active.

(** The requested slot fits a window of the effective hours. *)
Definition is_open (s : Store) (p : CreateReservationDTO.t) (c : Canteen.t)
  : bool :=
  existsb (ReservationService.window_holds (CreateReservationDTO.date p)
             (requested_start p) (requested_end p))
    (effective_hours s (CreateReservationDTO.canteenId p) c
       (CreateReservationDTO.date p)).

(** The record that a successful [create_reservation] returns. *)
Definition new_reservation (new_id : string) (p : CreateReservationDTO.t)
  : Reservation.t :=
  Reservation.mk (Some new_id) (CreateReservationDTO.studentId p)
    (CreateReservationDTO.canteenId p) (CreateReservationDTO.date p)
    (CreateReservationDTO.time p) (CreateReservationDTO.duration p) Active.

(** The item with its status set to [Cancelled]: what
    [DynamoRepository.cancel_reservation] puts back. *)
Definition cancel_item (it : Item.t) : Item.t :=
  Item.mk (Item.studentId it) (Item.canteenId it) (Item.date it)
    (Item.time it) (Item.duration it) Cancelled.

(** ** The exposed operations and the stores they reach *)

Inductive Operation :=
  | CreateReservation (today : Z) (new_id : string)
      (payload : CreateReservationDTO.t)
  | CancelReservation (reservation_id student_id : string)
  | CreateRestriction (new_id actor_id canteen_id : string)
      (payload : CreateRestrictionDTO.t)
  | DeleteRestriction (restriction_id : option string).

(** The store an operation leaves, whether it returns or raises. *)
Definition perform {str_lower : Lower} (op : Operation) (s : Store) : Store :=
  match op with
  | CreateReservation today new_id payload =>
      (ReservationService.create_reservation today new_id payload s).2
  | CancelReservation reservation_id student_id =>
      (ReservationService.cancel_reservation reservation_id student_id s).2
  | CreateRestriction new_id actor_id canteen_id payload =>
      (CanteenService.create_restriction new_id actor_id canteen_id
         payload s).2
  | DeleteRestriction restriction_id =>
      (CanteenService.delete_restriction restriction_id s).2
  end.

(** [uuid.uuid4()] gives [add_reservation] an id that is not in use. *)
Definition fresh_id (op : Operation) (s : Store) : Prop :=
  match op with
  | CreateReservation _ new_id _ => reservations_table s !! new_id = None
  | _ => True
  end.

Fixpoint perform_all {str_lower : Lower}
    (ops : list Operation) (s : Store) : Store :=
  match ops with
  | [] => s
  | op :: rest => perform_all rest (perform op s)
  end.

Fixpoint fresh_ids {str_lower : Lower}
    (ops : list Operation) (s : Store) : Prop :=
  match ops with
  | [] => True
  | op :: rest => fresh_id op s /\ fresh_ids rest (perform op s)
  end.

(** The table of reservations after the cascade over [affected]. *)
Definition cascade_table (working_hours : list WorkingHour.t)
    (affected : list Reservation.t) (table : gmap string Item.t)
  : gmap string Item.t :=
  foldl (fun table res =>
           if CanteenService.admissible working_hours res then table
           else match Reservation.id res with
                | Some key => alter cancel_item key table
                | None => table
                end)
    table affected.

(** The reservation stored under [key] is one the cascade of the restriction
    cancels: Active, of the canteen, dated in the inclusive range, its slot
    in none of the windows. *)
Definition hit_by (canteen_id : string) (payload : CreateRestrictionDTO.t)
    (key : string) (it : Item.t) : Prop :=
  Item.canteenId it = canteen_id
  /\ Item.status it = Active
  /\ CreateRestrictionDTO.startDate payload <= Item.date it
     <= CreateRestrictionDTO.endDate payload
  /\ ~ exists h, h ∈ CreateRestrictionDTO.workingHours payload
                 /\ res_within (parse_item key it) h.

(** The restriction that a successful [create_restriction] stores. *)
Definition new_restriction (new_id canteen_id : string)
    (payload : CreateRestrictionDTO.t) : Restriction.t :=
  Restriction.mk (Some new_id) canteen_id
    (CreateRestrictionDTO.startDate payload)
    (CreateRestrictionDTO.endDate payload)
    (CreateRestrictionDTO.workingHours payload).

(** The snapshot the cascade of a new restriction walks through. *)
Definition affected_by (canteen_id : string)
    (payload : CreateRestrictionDTO.t) (s : Store) : list Reservation.t :=
  filter (fun r => Reservation.canteenId r = canteen_id
                   /\ Reservation.status r = Active
                   /\ CreateRestrictionDTO.startDate payload
                      <= Reservation.date r
                      <= CreateRestrictionDTO.endDate payload)
    (scan_reservations s).

(** ** Scenarios: a canteen, three students and an administrator *)

(** The labels of the scenarios are ASCII text, on which [str.lower()] maps
    [A]-[Z] to [a]-[z] and keeps every other character: the scenarios are
    evaluated with that function.  It is no model of [str.lower()] on other
    text, and no theorem about the service depends on it. *)
Definition ascii_lower_char (c : ascii) : ascii :=
  let n := N_of_ascii c in
  if ((65 <=? n) && (n <=? 90))%N then ascii_of_N (n + 32) else c.

Fixpoint ascii_lower (s : string) : string :=
  match s with
  | EmptyString => EmptyString
  | String c s' => String (ascii_lower_char c) (ascii_lower s')
  end.

#[global] Instance scenario_lower : Lower := ascii_lower.

Module Scenario.
Import ReservationService.

Definition breakfast := WorkingHour.mk "breakfast" (hm 8 0) (hm 10 0).
Definition lunch := WorkingHour.mk "Lunch" (hm 12 0) (hm 15 0).
Definition menza :=
  Canteen.mk None "Studentski Grad Test" "Beograd" 2 [breakfast; lunch].
Definition marko := Student.mk None "Marko" "marko@ftn.com" false.
Definition jovan := Student.mk None "Jovan" "jovan@ftn.com" false.
Definition ana := Student.mk None "Ana" "ana@ftn.com" false.
Definition admin := Student.mk None "Admin" "admin@test.com" true.

Definition today : Z := 739000.
Definition tomorrow : Z := 739001.

Definition store0 : Store :=
  mk_store
    {[ "marko" := marko; "jovan" := jovan; "ana" := ana;
       "admin" := admin ]}
    {[ "menza" := menza ]} ∅ [] [].

Definition request (student : string) (h m duration : Z)
  : CreateReservationDTO.t :=
  CreateReservationDTO.mk student "menza" tomorrow (hm h m) duration.

(** The store after a [create_reservation] call, whatever its result. *)
Definition book (new_id : string) (p : CreateReservationDTO.t)
    (s : Store) : Store :=
  (create_reservation today new_id p s).2.

(** Marko holds 13:00-13:30. *)
Definition store1 : Store := book "r1" (request "marko" 13 0 30) store0.
End Scenario.

Module Bookings.
Import Scenario.

(** Marko holds 13:00-13:30 and asks for 13:30-14:00. *)
Definition touching := request "marko" 13 30 30.

(** Marko holds 08:00-08:30, then also 08:30-09:00, and asks for
    09:00-09:30: three breakfasts on one day. *)
Definition breakfast1 : Store := book "b1" (request "marko" 8 0 30) store0.
Definition breakfast2 : Store :=
  book "b2" (request "marko" 8 30 30) breakfast1.
Definition third_breakfast := request "marko" 9 0 30.

(** The canteen seats two: Marko and Jovan hold 12:00-12:30, Ana asks for
    the same slot. *)
Definition lunch1 : Store := book "l1" (request "marko" 12 0 30) store0.
Definition lunch2 : Store := book "l2" (request "jovan" 12 0 30) lunch1.
End Bookings.

Module RestrictedDay.
Import Scenario.

(** On [tomorrow] breakfast is served 08:00-09:00 only. *)
Definition short_breakfast : Restriction.t :=
  Restriction.mk (Some "x1") "menza" tomorrow tomorrow
    [WorkingHour.mk "breakfast" (hm 8 0) (hm 9 0)].

Definition restricted : Store :=
  mk_store (students_table store0) (canteens_table store0)
    (reservations_table store0) [short_breakfast] [].
End RestrictedDay.

Module CascadeDay.
Import Scenario.

(** Breakfast is served 08:00-10:00; four breakfasts on [tomorrow] and one
    the day after; then breakfast is cut to 08:00-09:00 on [tomorrow]. *)
Definition item (h m duration : Z) (date : Z) : Item.t :=
  Item.mk "marko" "menza" date (h, m) duration Active.

Definition booked : Store :=
  mk_store (students_table store0) (canteens_table store0)
    {[ "a" := item 8 0 30 tomorrow; "b" := item 8 30 30 tomorrow;
       "c" := item 8 30 60 tomorrow; "d" := item 9 0 30 tomorrow;
       "e" := item 9 0 30 (tomorrow + 1) ]}
    [] [].

Definition shorten : CreateRestrictionDTO.t :=
  CreateRestrictionDTO.mk tomorrow tomorrow
    [WorkingHour.mk "breakfast" (hm 8 0) (hm 9 0)].

Definition shortened : Store :=
  perform (CreateRestriction "x1" "admin" "menza" shorten) booked.

(** A non-working day that cancels a reservation, then is deleted. *)
Definition closed_day : CreateRestrictionDTO.t :=
  CreateRestrictionDTO.mk tomorrow tomorrow [].

Definition history : list Operation :=
  [ CreateReservation today "r1" (request "marko" 8 0 60);
    CreateRestriction "x1" "admin" "menza" closed_day;
    DeleteRestriction (Some "x1") ].
End CascadeDay.

(** ** The rest of the repository ([src/repository/repo.py]) *)

Definition set_students (t : gmap string Student.t) (s : Store) : Store :=
  mk_store t (canteens_table s) (reservations_table s) (restrictions s)
    (put_log s).

Definition set_canteens (t : gmap string Canteen.t) (s : Store) : Store :=
  mk_store (students_table s) t (reservations_table s) (restrictions s)
    (put_log s).

Definition set_reservations (t : gmap string Item.t) (s : Store) : Store :=
  mk_store (students_table s) (canteens_table s) t (restrictions s)
    (put_log s).

(** A working hour as [wh.model_dump()] writes it and [WorkingHour] reads it
    back: both times go through [strftime("%H:%M")]. *)
Definition dump_working_hour (h : WorkingHour.t) : WorkingHour.t :=
  WorkingHour.mk (WorkingHour.meal h)
    (fromisoformat (strftime_HM (WorkingHour.from_time h)))
    (fromisoformat (strftime_HM (WorkingHour.to_time h))).

(** The canteen item put under [key]. *)
Definition dump_canteen (key : string) (c : Canteen.t) : Canteen.t :=
  Canteen.mk (Some key) (Canteen.name c) (Canteen.location c)
    (Canteen.capacity c) (dump_working_hour <$> Canteen.workingHours c).

(** The [data: dict] of [update_canteen], its keys among the four fields
    an update can name: a field is [None] when the key is absent. *)
Module CanteenUpdate.
Record t := mk { name : option string; location : option string;
                 capacity : option Z;
                 workingHours : option (list WorkingHour.t) }.
End CanteenUpdate.

(** The [ValueError] of [add_student]. *)
Inductive AddStudentError := EmailExists.

Module DynamoRepositoryAdmin.
Import DynamoRepository.

(** The items the query on [EmailIndex] returns, as models. *)
Definition students_by_email (email : string) (s : Store)
  : list Student.t :=
  (fun kv => Student.mk (Some kv.1) (Student.name kv.2) (Student.email kv.2)
               (Student.isAdmin kv.2))
    <$> filter (fun kv => Student.email kv.2 = email)
          (map_to_list (students_table s)).

Definition add_student (new_id : string) (data : Student.t) (s : Store)
  : (AddStudentError + Student.t) * Store :=
  match students_by_email (Student.email data) s with
  | _ :: _ => (inl EmailExists, s)
  | [] =>
      let stored :=
        Student.mk (Some new_id) (Student.name data) (Student.email data)
          (Student.isAdmin data) in
      (inr stored, set_students (<[new_id := stored]> (students_table s)) s)
  end.

Definition get_student_by_email (email : string) : M (option Student.t) :=
  gets (fun s => head (students_by_email email s)).

Definition add_canteen (new_id : string) (data : Canteen.t)
  : M Canteen.t :=
  modify (fun s =>
    set_canteens (<[new_id := dump_canteen new_id data]> (canteens_table s))
      s);;
  mret (Canteen.mk (Some new_id) (Canteen.name data) (Canteen.location data)
          (Canteen.capacity data) (Canteen.workingHours data)).

Definition get_all_canteens : M (list Canteen.t) :=
  gets (fun s =>
    (fun kv => with_id kv.1 kv.2) <$> map_to_list (canteens_table s)).

(** [existing.model_copy(update=data)] *)
Definition model_copy (existing : Canteen.t) (data : CanteenUpdate.t)
  : Canteen.t :=
  Canteen.mk (Canteen.id existing)
    (default (Canteen.name existing) (CanteenUpdate.name data))
    (default (Canteen.location existing) (CanteenUpdate.location data))
    (default (Canteen.capacity existing) (CanteenUpdate.capacity data))
    (default (Canteen.workingHours existing)
       (CanteenUpdate.workingHours data)).

(** The item is put under [updated.id], the id [get_canteen_by_id] gave
    [existing]. *)
Definition update_canteen (canteen_id : string) (data : CanteenUpdate.t)
  : M (option Canteen.t) :=
  existing ← get_canteen_by_id canteen_id;
  match existing with
  | None => mret None
  | Some existing =>
      let updated := model_copy existing data in
      modify (fun s =>
        set_canteens
          (<[canteen_id := dump_canteen canteen_id updated]>
             (canteens_table s)) s);;
      mret (Some updated)
  end.

(** [reservations_table.delete_item(Key={"id": res.id})]; [res.id] is an
    [Optional[str]], set on every model read from the table. *)
Definition delete_reservation_item (key : option string) : M unit :=
  match key with
  | Some key =>
      modify (fun s => set_reservations (delete key (reservations_table s)) s)
  | None => mret tt
  end.

(** The loop of [delete_reservations_by_canteen_id]. *)
Fixpoint delete_loop (items : list Reservation.t) (count : Z) : M Z :=
  match items with
  | [] => mret count
  | res :: rest =>
      delete_reservation_item (Reservation.id res);;
      delete_loop rest (count + 1)
  end.

Definition delete_reservations_by_canteen_id (today : Z)
    (canteen_id : string) : M Z :=
  items ← get_active_reservations_by_canteen_and_date (Some canteen_id)
            today;
  delete_loop items 0.

Definition delete_canteen (today : Z) (canteen_id : string) : M bool :=
  modify (fun s => set_canteens (delete canteen_id (canteens_table s)) s);;
  delete_reservations_by_canteen_id today canteen_id;;
  mret true.

(** [for item in scan.get("Items", []): batch.delete_item(Key={"id":
    item["id"]})] on one table. *)
Definition clear_table {A} (table : gmap string A) : gmap string A :=
  foldl (fun t kv => delete kv.1 t) table (map_to_list table).

Definition clear_all : M unit :=
  modify (fun s => set_students (clear_table (students_table s)) s);;
  modify (fun s => set_canteens (clear_table (canteens_table s)) s);;
  modify (fun s => set_reservations (clear_table (reservations_table s)) s).

End DynamoRepositoryAdmin.

(** ** Invariants of the store *)

(** The store without the reservation under [key]. *)
Definition store_delete (key : string) (s : Store) : Store :=
  set_reservations (delete key (reservations_table s)) s.



(** No student holds two Active reservations whose slots overlap. *)
Definition no_double_booking (s : Store) : Prop :=
  forall r1 r2,
    r1 ∈ scan_reservations s -> r2 ∈ scan_reservations s ->
    Reservation.id r1 ≠ Reservation.id r2 ->
    Reservation.studentId r1 = Reservation.studentId r2 ->
    Reservation.status r1 = Active -> Reservation.status r2 = Active ->
    ~ (res_start r1 < res_end r2 /\ res_start r2 < res_end r1).

(** No two students share an email. *)
Definition unique_emails (s : Store) : Prop :=
  forall k1 k2 st1 st2,
    students_table s !! k1 = Some st1 -> students_table s !! k2 = Some st2 ->
    Student.email st1 = Student.email st2 -> k1 = k2.

(** Every rule of [create_reservation] holds for the request. *)
Definition acceptable {str_lower : Lower}
    (today : Z) (p : CreateReservationDTO.t) (s : Store)
  : Prop :=
  today <= CreateReservationDTO.date p
  /\ CreateReservationDTO.duration p ∈ [30; 60]
  /\ minute (CreateReservationDTO.time p) ∈ [0; 30]
  /\ is_Some (students_table s !! CreateReservationDTO.studentId p)
  /\ exists c m,
       canteens_table s !! CreateReservationDTO.canteenId p = Some c
       /\ (forall r, r ∈ scan_reservations s -> ~ conflicts_with p r)
       /\ classifyMeal (CreateReservationDTO.time p) (Canteen.workingHours c)
          = Some m
       /\ m ≠ EmptyString
       /\ (length (same_meal s p m) < 2)%nat
       /\ (exists h, h ∈ effective_hours s
                           (CreateReservationDTO.canteenId p) c
                           (CreateReservationDTO.date p)
                     /\ slot_within p h)
       /\ Z.of_nat (length (overlapping_in_slot s p)) < Canteen.capacity c.

(** The time of day is in the window, its start included and its end
    excluded: the test of [_get_meal_type]. *)
Definition holds_time (t : pytime) (h : WorkingHour.t) : Prop :=
  time_of_day (WorkingHour.from_time h) <= time_of_day t
  < time_of_day (WorkingHour.to_time h).

(** Both times of the working hour are whole minutes. *)
Definition on_minutes (h : WorkingHour.t) : Prop :=
  second (WorkingHour.from_time h) = 0
  /\ microsecond (WorkingHour.from_time h) = 0
  /\ second (WorkingHour.to_time h) = 0
  /\ microsecond (WorkingHour.to_time h) = 0.

(** The table after the deletes of [delete_reservations_by_canteen_id]. *)
Definition delete_all (items : list Reservation.t)
    (table : gmap string Item.t) : gmap string Item.t :=
  foldl (fun t res => match Reservation.id res with
                      | Some key => delete key t
                      | None => t
                      end) table items.

(** The reservation is one [delete_canteen] removes: Active, of the canteen,
    dated today. *)
Definition removed_with (today : Z) (canteen_id : string) (it : Item.t)
  : Prop :=
  Item.canteenId it = canteen_id /\ Item.status it = Active
  /\ Item.date it = today.

(** * Theorems *)

(** ** Running the monad *)

Lemma bind_run {A B} (m : M A) (f : A -> M B) (s : Store) :
  (m ≫= f) s =
  match m s with
  | (Ok a, s') => f a s'
  | (Raise e, s') => (Raise e, s')
  end.
Proof. reflexivity. Qed.

(** ** Interval tests *)

(** Instants compare as Python compares datetimes: by date, then by time of
    day. *)
Lemma combine_lt d1 t1 d2 t2 :
  valid_time t1 -> valid_time t2 ->
  combine d1 t1 < combine d2 t2
  <-> d1 < d2 \/ (d1 = d2 /\ time_of_day t1 < time_of_day t2).
Proof.
  unfold valid_time, combine, time_of_day, day_us. lia.
Qed.


Lemma overlaps_spec a_start a_end b_start b_end :
  overlaps a_start a_end b_start b_end = true
  <-> a_start < b_end /\ b_start < a_end.
Proof. unfold overlaps. rewrite andb_true_iff. lia. Qed.

Lemma within_spec slot_start slot_end window_start window_end :
  within slot_start slot_end window_start window_end = true
  <-> window_start <= slot_start /\ slot_end <= window_end.
Proof. unfold within. rewrite andb_true_iff. lia. Qed.

Lemma overlaps_self a_start a_end :
  overlaps a_start a_end a_start a_end = (a_start <? a_end).
Proof. unfold overlaps. destruct (a_start <? a_end) eqn:E; lia. Qed.

Lemma touching_do_not_overlap a_start a_end b_end :
  overlaps a_start a_end a_end b_end = false
  /\ overlaps a_end b_end a_start a_end = false.
Proof. unfold overlaps. split; apply andb_false_iff; lia. Qed.

(** ** The store *)

Lemma elem_of_scan_reservations s r :
  r ∈ scan_reservations s
  <-> exists key it, reservations_table s !! key = Some it
                     /\ r = parse_item key it.
Proof.
  unfold scan_reservations. rewrite list_elem_of_fmap. split.
  - intros [[key it] [-> H]]. apply elem_of_map_to_list in H. eauto.
  - intros (key & it & H & ->). exists (key, it). split; [done|].
    by apply elem_of_map_to_list.
Qed.

(** Every stored reservation is listed once, so the length of a filtered
    scan counts reservations. *)
Lemma NoDup_scan_reservations s : NoDup (scan_reservations s).
Proof.
  unfold scan_reservations. apply NoDup_fmap_2; [|apply NoDup_map_to_list].
  intros [k1 it1] [k2 it2] Heq. unfold parse_item, fromisoformat, hm in Heq.
  destruct it1 as [? ? ? [? ?] ? ?], it2 as [? ? ? [? ?] ? ?].
  simpl in Heq. injection Heq as -> -> -> -> -> -> -> ->. done.
Qed.

Lemma dump_parse_item key it : dump_item (parse_item key it) = it.
Proof. by destruct it as [? ? ? [? ?] ? ?]. Qed.

(** ** The checks of the validator, one by one *)

Section validator.
Import DynamoRepository ReservationService.

Lemma validate_run today p s :
  _validate_reservation_payload today p s =
  if CreateReservationDTO.date p <? today then (Raise PastDate, s) else
  if negb (bool_decide (CreateReservationDTO.duration p ∈ [30; 60]))
  then (Raise BadDuration, s) else
  if negb (bool_decide (minute (CreateReservationDTO.time p) ∈ [0; 30]))
  then (Raise BadMinute, s) else
  match students_table s !! CreateReservationDTO.studentId p with
  | None => (Raise StudentNotFound, s)
  | Some _ =>
      match canteens_table s !! CreateReservationDTO.canteenId p with
      | None => (Raise CanteenNotFound, s)
      | Some c =>
          (Ok (CreateReservationDTO.time p,
               with_id (CreateReservationDTO.canteenId p) c), s)
      end
  end.
Proof.
  unfold _validate_reservation_payload.
  repeat (case_match; [done|]).
  rewrite bind_run. unfold get_student_by_id, gets.
  destruct (students_table s !! _) as [st|]; simpl; [|done].
  rewrite bind_run. unfold get_canteen_by_id, gets.
  by destruct (canteens_table s !! _) as [c|].
Qed.

Lemma student_overlap_loop_spec l a b :
  student_overlap_loop l a b =
  if bool_decide (Exists (fun r => Reservation.status r = Active
                                   /\ a < res_end r /\ res_start r < b) l)
  then Raise Conflict else Ok tt.
Proof.
  induction l as [|r l IH]; cbn [student_overlap_loop].
  - rewrite bool_decide_eq_false_2; [done|]. by intros H%Exists_nil.
  - set (P := fun r => Reservation.status r = Active
                       /\ a < res_end r /\ res_start r < b) in *.
    destruct (bool_decide (Reservation.status r ≠ Active)) eqn:Hst.
    + apply bool_decide_eq_true in Hst. rewrite IH.
      rewrite (bool_decide_ext (Exists P (r :: l)) (Exists P l)); [done|].
      rewrite Exists_cons. unfold P at 1. tauto.
    + apply bool_decide_eq_false in Hst.
      destruct (overlaps a b (res_start r) (res_end r)) eqn:Ho.
      * apply overlaps_spec in Ho.
        rewrite bool_decide_eq_true_2; [done|].
        apply Exists_cons. left. split; [|done].
        by destruct (decide (Reservation.status r = Active)).
      * rewrite IH.
        rewrite (bool_decide_ext (Exists P (r :: l)) (Exists P l));
          [done|].
        rewrite Exists_cons. unfold P at 1.
        assert (~ (a < res_end r /\ res_start r < b)).
        { intros H. apply overlaps_spec in H. congruence. }
        tauto.
Qed.

Lemma get_meal_type_classify {str_lower : Lower} dummy_date t hours :
  _get_meal_type dummy_date t hours = classifyMeal t hours.
Proof.
  unfold classifyMeal. induction hours as [|h hours IH]; simpl; [done|].
  unfold combine.
  replace (dummy_date * day_us + time_of_day (WorkingHour.from_time h)
           <=? dummy_date * day_us + time_of_day t)
    with (time_of_day (WorkingHour.from_time h) <=? time_of_day t)
    by (apply eq_true_iff_eq; rewrite !Z.leb_le; lia).
  replace (dummy_date * day_us + time_of_day t
           <? dummy_date * day_us + time_of_day (WorkingHour.to_time h))
    with (time_of_day t <? time_of_day (WorkingHour.to_time h))
    by (apply eq_true_iff_eq; rewrite !Z.ltb_lt; lia).
  by case_match.
Qed.

Lemma meal_type_count_loop_spec {str_lower : Lower} today l m acc s :
  meal_type_count_loop today l m acc s =
  (Ok (acc + Z.of_nat (length
         (filter (fun r => meal_of s r = Some m /\ m ≠ EmptyString) l))),
   s).
Proof.
  revert acc. induction l as [|r l IH]; intros acc;
    cbn [meal_type_count_loop].
  - simpl. by rewrite Z.add_0_r.
  - rewrite bind_run. unfold get_canteen_by_id at 1, gets.
    rewrite filter_cons.
    assert (meal_of s r =
            c ← canteens_table s !! Reservation.canteenId r;
            classifyMeal (Reservation.time r) (Canteen.workingHours c))
      as Hmo by done.
    destruct (canteens_table s !! Reservation.canteenId r) as [c|];
      simpl in *.
    + rewrite get_meal_type_classify.
      destruct (classifyMeal (Reservation.time r) (Canteen.workingHours c))
        as [m'|]; simpl.
      * destruct (decide (m' = m)) as [->|Hne].
        -- destruct (decide (m = EmptyString)) as [->|Hm].
           ++ rewrite decide_False by (intros [_ ?]; done). simpl.
              apply IH.
           ++ rewrite bool_decide_eq_false_2 by done.
              rewrite bool_decide_eq_true_2 by done.
              rewrite decide_True by done. simpl.
              rewrite IH. do 2 f_equal. lia.
        -- rewrite (bool_decide_eq_false_2 (Some m' = Some m))
             by congruence.
           rewrite andb_false_r.
           rewrite decide_False by (intros [? _]; congruence).
           apply IH.
      * rewrite decide_False by (intros [? _]; congruence). apply IH.
    + rewrite decide_False by (intros [? _]; congruence). apply IH.
Qed.

Lemma capacity_count_loop_spec l a b acc :
  capacity_count_loop l a b acc =
  acc + Z.of_nat (length
          (filter (fun r => a < res_end r /\ res_start r < b) l)).
Proof.
  revert acc. induction l as [|r l IH]; intros acc; simpl.
  - lia.
  - rewrite filter_cons.
    destruct (overlaps a b (res_start r) (res_end r)) eqn:Ho.
    + apply overlaps_spec in Ho. rewrite decide_True by done.
      rewrite IH. simpl. lia.
    + rewrite decide_False; [apply IH|].
      intros H. apply overlaps_spec in H. congruence.
Qed.

Lemma check_student_overlap_run sid a b s :
  _check_student_overlap sid a b s =
  (if bool_decide
        (Exists (fun r => Reservation.studentId r = sid
                          /\ Reservation.status r = Active
                          /\ a < res_end r /\ res_start r < b)
           (scan_reservations s))
   then Raise Conflict else Ok tt, s).
Proof.
  unfold _check_student_overlap. rewrite bind_run.
  unfold get_reservations_by_student_id, gets, lift.
  rewrite student_overlap_loop_spec. f_equal.
  match goal with |- (if ?x then _ else _) = (if ?y then _ else _) =>
    assert (x = y) as ->; [|done] end.
  apply bool_decide_ext. rewrite !Exists_exists. split.
  - intros (r & Hr & ? & ? & ?). apply list_elem_of_filter in Hr as [? ?].
    eauto 10.
  - intros (r & Hr & ? & ? & ? & ?). exists r. split; [|done].
    by apply list_elem_of_filter.
Qed.

Lemma check_meal_type_limit_run {str_lower : Lower} today p m s :
  _check_meal_type_limit today (CreateReservationDTO.studentId p)
    (CreateReservationDTO.date p) m s =
  (if bool_decide (m ≠ EmptyString)
      && (2 <=? Z.of_nat (length (same_meal s p m)))
   then Raise QuotaExceeded else Ok tt, s).
Proof.
  unfold _check_meal_type_limit. rewrite bind_run.
  unfold get_reservations_by_student_id at 1, gets.
  rewrite bind_run, meal_type_count_loop_spec.
  rewrite !list_filter_filter. unfold same_meal.
  destruct (decide (m = EmptyString)) as [->|Hm].
  - rewrite (list_filter_iff _ (fun _ => False))
      by (intros r; split; [|done]; intros H;
          assert (EmptyString ≠ EmptyString) by tauto; done).
    assert (forall l : list Reservation.t,
              filter (fun _ => False) l = []) as ->.
    { intros l. induction l; [done|]. by rewrite filter_cons. }
    by rewrite bool_decide_eq_false_2 by (intros H; done).
  - rewrite bool_decide_eq_true_2 by done.
    rewrite (list_filter_iff _
      (fun r => Reservation.studentId r = CreateReservationDTO.studentId p
                /\ Reservation.status r = Active
                /\ Reservation.date r = CreateReservationDTO.date p
                /\ meal_of s r = Some m)) by (intros r; tauto).
    simpl. unfold raise, mret, M_ret. rewrite Z.add_0_l.
    match goal with |- context [?n >=? 2] =>
      destruct (n >=? 2) eqn:E1; destruct (2 <=? n) eqn:E2 end;
      try done; lia.
Qed.

Lemma check_capacity_run p c s :
  _check_capacity (with_id (CreateReservationDTO.canteenId p) c)
    (CreateReservationDTO.date p) (CreateReservationDTO.time p)
    (CreateReservationDTO.duration p) s =
  (if negb (is_open s p c) then Raise Closed
   else if Canteen.capacity c
           <=? Z.of_nat (length (overlapping_in_slot s p))
   then Raise CapacityExceeded else Ok tt, s).
Proof.
  unfold _check_capacity. rewrite bind_run.
  unfold get_restrictions_by_canteen_id at 1, gets.
  change (existsb _ _) with (is_open s p c).
  destruct (is_open s p c); simpl; [|done].
  rewrite bind_run.
  unfold get_active_reservations_by_canteen_and_date at 1, gets.
  rewrite capacity_count_loop_spec, list_filter_filter, Z.add_0_l.
  rewrite (list_filter_iff _
    (fun r => Reservation.canteenId r = CreateReservationDTO.canteenId p
              /\ Reservation.status r = Active
              /\ Reservation.date r = CreateReservationDTO.date p
              /\ requested_start p < res_end r
              /\ res_start r < requested_end p)).
  2:{ intros r. unfold requested_end, requested_start. simpl.
      assert (Some (Reservation.canteenId r)
              = Some (CreateReservationDTO.canteenId p)
              <-> Reservation.canteenId r
                  = CreateReservationDTO.canteenId p)
        by (split; congruence).
      tauto. }
  fold (overlapping_in_slot s p). unfold raise, mret, M_ret.
  match goal with |- context [?x - ?n <=? 0] =>
    destruct (x - n <=? 0) eqn:E1; destruct (x <=? n) eqn:E2 end;
    try done; lia.
Qed.

(** The whole pipeline of [create_reservation], check by check. *)
Lemma create_reservation_run {str_lower : Lower} today new_id p s :
  create_reservation today new_id p s =
  if CreateReservationDTO.date p <? today then (Raise PastDate, s) else
  if negb (bool_decide (CreateReservationDTO.duration p ∈ [30; 60]))
  then (Raise BadDuration, s) else
  if negb (bool_decide (minute (CreateReservationDTO.time p) ∈ [0; 30]))
  then (Raise BadMinute, s) else
  match students_table s !! CreateReservationDTO.studentId p with
  | None => (Raise StudentNotFound, s)
  | Some _ =>
  match canteens_table s !! CreateReservationDTO.canteenId p with
  | None => (Raise CanteenNotFound, s)
  | Some c =>
    if bool_decide (Exists (conflicts_with p) (scan_reservations s))
    then (Raise Conflict, s) else
    match classifyMeal (CreateReservationDTO.time p)
            (Canteen.workingHours c) with
    | None => (Raise NoMealType, s)
    | Some m =>
      if bool_decide (m = EmptyString) then (Raise NoMealType, s) else
      if 2 <=? Z.of_nat (length (same_meal s p m))
      then (Raise QuotaExceeded, s) else
      if negb (is_open s p c) then (Raise Closed, s) else
      if Canteen.capacity c
         <=? Z.of_nat (length (overlapping_in_slot s p))
      then (Raise CapacityExceeded, s) else
      (Ok (new_reservation new_id p), store_put new_id (new_item p) s)
    end
  end
  end.
Proof.
  unfold create_reservation. rewrite bind_run, validate_run.
  destruct (CreateReservationDTO.date p <? today); [done|].
  destruct (negb (bool_decide (CreateReservationDTO.duration p ∈ _)));
    [done|].
  destruct (negb (bool_decide (minute _ ∈ _))); [done|].
  destruct (students_table s !! _) as [st|]; [|done].
  destruct (canteens_table s !! _) as [c|]; [|done].
  rewrite bind_run, check_student_overlap_run.
  change (Exists _ (scan_reservations s))
    with (Exists (conflicts_with p) (scan_reservations s)).
  destruct (decide (Exists (conflicts_with p) (scan_reservations s)))
    as [Hc|Hc].
  { by rewrite !bool_decide_eq_true_2 by done. }
  rewrite !bool_decide_eq_false_2 by done.
  rewrite get_meal_type_classify. cbn [Canteen.workingHours with_id].
  destruct (classifyMeal _ _) as [m|]; [|done].
  unfold truthy. case_bool_decide as Hm; [done|]. cbn [negb].
  rewrite bind_run, check_meal_type_limit_run.
  rewrite bool_decide_eq_true_2 by done. cbn [andb].
  destruct (2 <=? _); [done|].
  rewrite bind_run, check_capacity_run.
  destruct (is_open s p c); [|done]. cbn [negb].
  destruct (Canteen.capacity c <=? _); [done|]. reflexivity.
Qed.
End validator.

(** ** The overlap test *)

(** C7: the half-open overlap test of the validator is symmetric in its two
    intervals, whatever the four instants; every interval with its start
    before its end overlaps itself, and so does the slot of every
    reservation, its duration being positive ([Field(ge=30, le=60)] in the
    model class). *)
Theorem overlaps_symmetric_and_reflexive :
  (forall a_start a_end b_start b_end,
     overlaps a_start a_end b_start b_end
     = overlaps b_start b_end a_start a_end)
  /\ (forall a_start a_end,
        a_start < a_end -> overlaps a_start a_end a_start a_end = true)
  /\ (forall res : Reservation.t,
        0 < Reservation.duration res ->
        overlaps (res_start res) (res_end res) (res_start res) (res_end res)
        = true).
Proof.
  split; [|split].
  - intros a_start a_end b_start b_end. unfold overlaps.
    apply eq_true_iff_eq. rewrite !andb_true_iff, !Z.ltb_lt, !Z.gtb_lt. lia.
  - intros a_start a_end Hlt. rewrite overlaps_self. by apply Z.ltb_lt.
  - intros res Hd. rewrite overlaps_self. apply Z.ltb_lt.
    unfold res_end, minutes. lia.
Qed.

Lemma overlaps_symmetric_and_reflexive_witness :
  let res := Reservation.mk (Some "r1") "marko" "menza" 739001 (hm 13 0) 30
               Active in
  0 < Reservation.duration res
  /\ overlaps (res_start res) (res_end res) (res_start res) (res_end res)
     = true
  /\ overlaps (res_start res) (res_end res) 0 1
     = overlaps 0 1 (res_start res) (res_end res).
Proof.
  intros res.
  assert (0 < Reservation.duration res) as H by (simpl; lia).
  split; [exact H|]. split.
  - exact (proj2 (proj2 overlaps_symmetric_and_reflexive) res H).
  - exact (proj1 overlaps_symmetric_and_reflexive _ _ 0 1).
Defined.

(** ** Cancelling a reservation *)

Section cancel.
Import DynamoRepository.

Lemma repo_cancel_run rid s :
  DynamoRepository.cancel_reservation rid s =
  match reservations_table s !! rid with
  | None => (Ok None, s)
  | Some it =>
      (Ok (Some (set_status Cancelled (parse_item rid it))),
       store_put rid (cancel_item it) s)
  end.
Proof.
  unfold DynamoRepository.cancel_reservation. rewrite bind_run.
  unfold get_reservation_by_id, gets.
  destruct (reservations_table s !! rid) as [it|]; [|done].
  by destruct it as [? ? ? [? ?] ? ?].
Qed.
End cancel.

Lemma service_cancel_run reservation_id student_id s :
  ReservationService.cancel_reservation reservation_id student_id s =
  match reservations_table s !! reservation_id with
  | None => (Raise NotFound, s)
  | Some it =>
      if decide (Item.studentId it ≠ student_id)
      then (Raise Forbidden, s)
      else if decide (Item.status it = Cancelled)
      then (Raise AlreadyCancelled, s)
      else (Ok (Some (set_status Cancelled
                        (parse_item reservation_id it))),
            store_put reservation_id (cancel_item it) s)
  end.
Proof.
  unfold ReservationService.cancel_reservation. rewrite bind_run.
  unfold DynamoRepository.get_reservation_by_id at 1, gets.
  destruct (reservations_table s !! reservation_id) as [it|] eqn:Hit;
    [|done].
  cbn [fmap option_fmap option_map parse_item Reservation.studentId
       Reservation.status].
  destruct (decide (Item.studentId it ≠ student_id)).
  { by rewrite bool_decide_eq_true_2. }
  rewrite bool_decide_eq_false_2 by done.
  destruct (decide (Item.status it = Cancelled)).
  { by rewrite bool_decide_eq_true_2. }
  rewrite bool_decide_eq_false_2 by done.
  by rewrite repo_cancel_run, Hit.
Qed.

(** C5: [cancel_reservation] raises NotFound when no reservation has the
    id; otherwise Forbidden when the reservation belongs to another student,
    whatever its status; otherwise AlreadyCancelled when its status is
    already Cancelled; otherwise it puts the reservation back with status
    Cancelled and returns the updated reservation.  The three failing cases
    leave the store as it was. *)
Theorem cancel_reservation_contract (reservation_id student_id : string)
    (s : Store) :
  let run :=
    ReservationService.cancel_reservation reservation_id student_id s in
  (reservations_table s !! reservation_id = None ->
   run = (Raise NotFound, s))
  /\ (forall it,
        reservations_table s !! reservation_id = Some it ->
        (Item.studentId it ≠ student_id -> run = (Raise Forbidden, s))
        /\ (Item.studentId it = student_id ->
            Item.status it = Cancelled ->
            run = (Raise AlreadyCancelled, s))
        /\ (Item.studentId it = student_id ->
            Item.status it ≠ Cancelled ->
            run.1 = Ok (Some (set_status Cancelled
                                (parse_item reservation_id it)))
            /\ run.2 = store_put reservation_id (cancel_item it) s
            /\ reservations_table run.2 !! reservation_id
               = Some (cancel_item it)
            /\ status_of run.2 reservation_id = Some Cancelled)).
Proof.
  intros run. subst run. rewrite service_cancel_run. split.
  - by intros ->.
  - intros it ->. split; [|split].
    + intros Hne. by rewrite decide_True.
    + intros Heq Hst. rewrite decide_False by (intros H; by apply H).
      by rewrite decide_True.
    + intros Heq Hst. rewrite decide_False by (intros H; by apply H).
      rewrite decide_False by done. cbn [fst snd].
      unfold status_of, store_put. cbn [reservations_table].
      by rewrite lookup_insert_eq.
Qed.

Lemma cancel_reservation_contract_witness :
  let run := ReservationService.cancel_reservation "r1" "marko"
               Scenario.store1 in
  let it := Item.mk "marko" "menza" 739001 (13, 0) 30 Active in
  reservations_table Scenario.store1 !! "r1" = Some it
  /\ Item.studentId it = "marko"
  /\ Item.status it ≠ Cancelled
  /\ run.1 = Ok (Some (set_status Cancelled (parse_item "r1" it)))
  /\ status_of run.2 "r1" = Some Cancelled.
Proof.
  intros run it.
  assert (reservations_table Scenario.store1 !! "r1" = Some it)
    as Hit by (vm_compute; reflexivity).
  assert (Item.studentId it = "marko") as Hs by reflexivity.
  assert (Item.status it ≠ Cancelled) as Hst by (vm_compute; discriminate).
  split; [exact Hit|]. split; [exact Hs|]. split; [exact Hst|].
  destruct (proj2 (proj2 (proj2 (cancel_reservation_contract "r1" "marko"
                                   Scenario.store1) it Hit)) Hs Hst)
    as (H1 & _ & _ & H4).
  split; [exact H1|exact H4].
Defined.

(** C10: on a stored reservation the store's cancel operation changes the
    status, to Cancelled, and nothing else: the returned model, the item
    put back and the model read back afterwards have the id, studentId,
    canteenId, date, time and duration they had before the call, and every
    other reservation is left as it was. *)
Theorem repo_cancel_changes_only_status (reservation_id : string)
    (it : Item.t) (s : Store)
    (Hstored : reservations_table s !! reservation_id = Some it) :
  let before := parse_item reservation_id it in
  let run := DynamoRepository.cancel_reservation reservation_id s in
  exists returned persisted,
    run.1 = Ok (Some returned)
    /\ reservations_table run.2 !! reservation_id = Some persisted
    /\ (DynamoRepository.get_reservation_by_id reservation_id run.2).1
       = Ok (Some returned)
    /\ returned = set_status Cancelled before
    /\ Reservation.id returned = Reservation.id before
    /\ Reservation.studentId returned = Reservation.studentId before
    /\ Reservation.canteenId returned = Reservation.canteenId before
    /\ Reservation.date returned = Reservation.date before
    /\ Reservation.time returned = Reservation.time before
    /\ Reservation.duration returned = Reservation.duration before
    /\ Reservation.status returned = Cancelled
    /\ Item.studentId persisted = Item.studentId it
    /\ Item.canteenId persisted = Item.canteenId it
    /\ Item.date persisted = Item.date it
    /\ Item.time persisted = Item.time it
    /\ Item.duration persisted = Item.duration it
    /\ Item.status persisted = Cancelled
    /\ (forall key, key ≠ reservation_id ->
          reservations_table run.2 !! key = reservations_table s !! key)
    /\ (Item.status it ≠ Cancelled ->
        ReservationService.cancel_reservation reservation_id
          (Item.studentId it) s = run).
Proof.
  intros before run. subst before run.
  rewrite repo_cancel_run, Hstored.
  exists (set_status Cancelled (parse_item reservation_id it)),
         (cancel_item it).
  cbn [fst snd store_put reservations_table].
  rewrite lookup_insert_eq.
  repeat split.
  - unfold DynamoRepository.get_reservation_by_id, gets, store_put.
    cbn [fst reservations_table]. by rewrite lookup_insert_eq.
  - intros key Hne. by rewrite lookup_insert_ne.
  - intros Hst. rewrite service_cancel_run, Hstored.
    rewrite decide_False by (intros H; by apply H).
    by rewrite decide_False by done.
Qed.

Lemma repo_cancel_changes_only_status_witness :
  let s := Scenario.store1 in
  let it := Item.mk "marko" "menza" 739001 (13, 0) 30 Active in
  reservations_table s !! "r1" = Some it
  /\ exists returned persisted,
       (DynamoRepository.cancel_reservation "r1" s).1 = Ok (Some returned)
       /\ reservations_table
            (DynamoRepository.cancel_reservation "r1" s).2 !! "r1"
          = Some persisted
       /\ Reservation.time returned = hm 13 0
       /\ Item.status persisted = Cancelled.
Proof.
  intros s it.
  assert (reservations_table s !! "r1" = Some it)
    as H by (vm_compute; reflexivity).
  split; [exact H|].
  destruct (repo_cancel_changes_only_status "r1" it s H)
    as (returned & persisted & H1 & H2 & _ & _ & _ & _ & _ & _ & H3 & _
        & _ & _ & _ & _ & _ & _ & H4 & _).
  exists returned, persisted. repeat split; assumption.
Defined.

(** ** Creating a reservation *)

(** Splits the goal along the checks of [create_reservation_run]: [k]
    closes the branch of every check that raises, the branch where all
    checks pass is left. *)
Ltac pipeline today new_id p s k :=
  rewrite (create_reservation_run today new_id p s);
  destruct (CreateReservationDTO.date p <? today) eqn:Hdate; [k|];
  destruct (negb (bool_decide (CreateReservationDTO.duration p ∈ [30; 60])))
    eqn:Hduration; [k|];
  destruct (negb (bool_decide
              (minute (CreateReservationDTO.time p) ∈ [0; 30])))
    eqn:Hminute; [k|];
  destruct (students_table s !! CreateReservationDTO.studentId p)
    as [student|] eqn:Hstudent; [|k];
  destruct (canteens_table s !! CreateReservationDTO.canteenId p)
    as [c|] eqn:Hcanteen; [|k];
  destruct (decide (Exists (conflicts_with p) (scan_reservations s)))
    as [Hconflict|Hconflict];
    [rewrite (bool_decide_eq_true_2 _ Hconflict); k
    |rewrite (bool_decide_eq_false_2 _ Hconflict)];
  destruct (classifyMeal (CreateReservationDTO.time p)
              (Canteen.workingHours c)) as [m|] eqn:Hmeal; [|k];
  destruct (bool_decide (m = EmptyString)) eqn:Hlabel; [k|];
  destruct (2 <=? Z.of_nat (length (same_meal s p m))) eqn:Hquota; [k|];
  destruct (is_open s p c) eqn:Hopen; cbn [negb]; [|k];
  destruct (Canteen.capacity c
            <=? Z.of_nat (length (overlapping_in_slot s p)))
    eqn:Hcapacity; [k|].

(** C8: a [create_reservation] call that fails leaves the store as it was,
    the table of reservations and the sequence of puts included, and the
    error is one of the ten validation errors; a call that succeeds has
    made exactly one put, of the new reservation with status Active, after
    the last check. *)
Theorem create_reservation_writes_only_on_success {str_lower : Lower}
    (today : Z)
    (new_id : string) (p : CreateReservationDTO.t) (s : Store) :
  let run := ReservationService.create_reservation today new_id p s in
  (forall e, run.1 = Raise e ->
     run.2 = s
     /\ e ∈ [PastDate; BadDuration; BadMinute; StudentNotFound;
             CanteenNotFound; Conflict; NoMealType; QuotaExceeded; Closed;
             CapacityExceeded])
  /\ (forall r, run.1 = Ok r ->
        r = new_reservation new_id p
        /\ run.2 = store_put new_id (new_item p) s
        /\ put_log run.2 = put_log s ++ [PutReservation new_id (new_item p)]
        /\ reservations_table run.2
           = <[new_id := new_item p]> (reservations_table s)).
Proof.
  intros run. subst run.
  pipeline today new_id p s
    ltac:(split; [intros e [= <-]; split; [reflexivity|set_solver]
                 |intros r [=]]).
  split; [intros e [=]|intros r [= <-]; by repeat split].
Qed.

Lemma create_reservation_writes_only_on_success_witness :
  let run :=
    ReservationService.create_reservation Scenario.today "r2"
      (Scenario.request "marko" 13 0 60) Scenario.store1 in
  run.1 = Raise Conflict /\ run.2 = Scenario.store1.
Proof.
  intros run.
  assert (run.1 = Raise Conflict) as H by (vm_compute; reflexivity).
  split; [exact H|].
  exact (proj1 (proj1 (create_reservation_writes_only_on_success
                         Scenario.today "r2"
                         (Scenario.request "marko" 13 0 60)
                         Scenario.store1) Conflict H)).
Defined.

Lemma passes_steps_before_Raise {A} n e :
  @passes_steps_before A n (Raise e) <-> (n <= step e)%nat.
Proof. done. Qed.

(** C3: among the requests that reach step 5, the request is rejected with
    Conflict exactly when some stored Active reservation of the same
    student, at whatever canteen, overlaps the requested interval, both
    taken as half-open intervals of absolute instants; a stored reservation
    that ends when the request starts, or starts when it ends, is no
    conflict, and Marko, holding 13:00-13:30, obtains 13:30-14:00. *)
Theorem conflict_iff_student_overlap :
  (forall (str_lower : Lower) (today : Z) (new_id : string)
          (p : CreateReservationDTO.t) (s : Store),
     passes_steps_before 5
       (ReservationService.create_reservation today new_id p s).1 ->
     ((ReservationService.create_reservation today new_id p s).1
        = Raise Conflict
      <-> exists r, r ∈ scan_reservations s /\ conflicts_with p r))
  /\ (forall p r, res_end r = requested_start p
                  \/ requested_end p = res_start r ->
                  ~ conflicts_with p r)
  /\ (ReservationService.create_reservation Scenario.today "r1"
        (Scenario.request "marko" 13 0 30) Scenario.store0).1
     = Ok (new_reservation "r1" (Scenario.request "marko" 13 0 30))
  /\ (ReservationService.create_reservation Scenario.today "r2"
        Bookings.touching Scenario.store1).1
     = Ok (new_reservation "r2" Bookings.touching).
Proof.
  split; [|split; [|split; by vm_compute]].
  - intros str_lower today new_id p s.
    pipeline today new_id p s
      ltac:(cbn [fst]; rewrite ?passes_steps_before_Raise; intros Hpass;
            first [ exfalso; simpl in Hpass; lia
                  | split; [intros _; by apply Exists_exists in Hconflict
                           |done]
                  | split; [intros [=]
                           |intros Hex; exfalso;
                            apply Hconflict, Exists_exists, Hex] ]).
    cbn [fst]. intros _. split; [intros [=]|].
    intros Hex. exfalso. apply Hconflict, Exists_exists, Hex.
  - intros p r Htouch (_ & _ & H1 & H2). lia.
Qed.

Lemma conflict_iff_student_overlap_witness :
  let run :=
    ReservationService.create_reservation Scenario.today "r2"
      (Scenario.request "marko" 13 0 60) Scenario.store1 in
  passes_steps_before 5 run.1
  /\ (run.1 = Raise Conflict
      <-> exists r, r ∈ scan_reservations Scenario.store1
                    /\ conflicts_with (Scenario.request "marko" 13 0 60) r).
Proof.
  intros run.
  assert (passes_steps_before 5 run.1) as H by (vm_compute; lia).
  split; [exact H|].
  exact (proj1 conflict_iff_student_overlap scenario_lower Scenario.today "r2"
           (Scenario.request "marko" 13 0 60) Scenario.store1 H).
Defined.

(** C4: among the requests that reach step 7, the request is rejected with
    QuotaExceeded exactly when the student holds at least two Active
    reservations on the requested date whose meal, classified against the
    nominal hours of the reservation's own canteen, is the meal [m] of the
    requested time at the requested canteen, the meals being the labels as
    [str.lower()] returns them, whatever function [str.lower()] is; Marko's
    first and second breakfast of the day are created and his third is
    rejected. *)
Theorem quota_iff_two_of_same_meal :
  (forall (str_lower : Lower) (today : Z) (new_id : string)
          (p : CreateReservationDTO.t) (s : Store),
     passes_steps_before 7
       (ReservationService.create_reservation today new_id p s).1 ->
     exists c m,
       canteens_table s !! CreateReservationDTO.canteenId p = Some c
       /\ ReservationService._get_meal_type today
            (CreateReservationDTO.time p) (Canteen.workingHours c) = Some m
       /\ classifyMeal (CreateReservationDTO.time p)
            (Canteen.workingHours c) = Some m
       /\ ((ReservationService.create_reservation today new_id p s).1
             = Raise QuotaExceeded
           <-> (2 <= length (same_meal s p m))%nat))
  /\ (ReservationService.create_reservation Scenario.today "b1"
        (Scenario.request "marko" 8 0 30) Scenario.store0).1
     = Ok (new_reservation "b1" (Scenario.request "marko" 8 0 30))
  /\ (ReservationService.create_reservation Scenario.today "b2"
        (Scenario.request "marko" 8 30 30) Bookings.breakfast1).1
     = Ok (new_reservation "b2" (Scenario.request "marko" 8 30 30))
  /\ (ReservationService.create_reservation Scenario.today "b3"
        Bookings.third_breakfast Bookings.breakfast2).1
     = Raise QuotaExceeded.
Proof.
  split; [|repeat split; by vm_compute].
  intros str_lower today new_id p s.
  pipeline today new_id p s
    ltac:(cbn [fst]; rewrite ?passes_steps_before_Raise; intros Hpass;
          first [ exfalso; simpl in Hpass; lia
                | exists c, m; rewrite get_meal_type_classify;
                  repeat split; try done; try lia ]).
  cbn [fst]. intros _. exists c, m. rewrite get_meal_type_classify.
  repeat split; try done. lia.
Qed.

Lemma quota_iff_two_of_same_meal_witness :
  let run :=
    ReservationService.create_reservation Scenario.today "b3"
      Bookings.third_breakfast Bookings.breakfast2 in
  passes_steps_before 7 run.1
  /\ exists c m,
       canteens_table Bookings.breakfast2 !! "menza" = Some c
       /\ classifyMeal (hm 9 0) (Canteen.workingHours c) = Some m
       /\ (run.1 = Raise QuotaExceeded
           <-> (2 <= length (same_meal Bookings.breakfast2
                               Bookings.third_breakfast m))%nat).
Proof.
  intros run.
  assert (passes_steps_before 7 run.1) as H by (vm_compute; lia).
  split; [exact H|].
  destruct (proj1 quota_iff_two_of_same_meal scenario_lower
              Scenario.today "b3"
              Bookings.third_breakfast Bookings.breakfast2 H)
    as (c & m & H1 & _ & H2 & H3).
  exists c, m. repeat split; assumption || apply H3.
Defined.

Lemma effective_hours_cases s canteen_id c date :
  (exists r, covering s canteen_id date r
             /\ effective_hours s canteen_id c date
                = Restriction.workingHours r)
  \/ ((forall r, ~ covering s canteen_id date r)
      /\ effective_hours s canteen_id c date = Canteen.workingHours c).
Proof.
  unfold effective_hours, ReservationService.working_hours_to_check.
  destruct (List.find _ _) as [r|] eqn:Hfind.
  - left. exists r. split; [|done].
    apply find_some in Hfind as [Hin Hcov].
    apply list_elem_of_In, list_elem_of_filter in Hin as [[= Hc] Hin].
    unfold ReservationService.covers in Hcov.
    apply andb_true_iff in Hcov as [?%Z.leb_le ?%Z.leb_le].
    by repeat split.
  - right. split; [|done]. intros r (Hin & Hc & Hd).
    pose proof (find_none _ _ Hfind r) as Hnone.
    unfold ReservationService.covers in Hnone.
    rewrite andb_false_iff, !Z.leb_gt in Hnone.
    destruct Hnone; [|lia|lia].
    apply list_elem_of_In, list_elem_of_filter. split; [by f_equal|done].
Qed.

Lemma is_open_spec s p c :
  is_open s p c = true
  <-> exists h, h ∈ effective_hours s (CreateReservationDTO.canteenId p) c
                      (CreateReservationDTO.date p)
                /\ slot_within p h.
Proof.
  unfold is_open. rewrite existsb_exists.
  split; intros (h & Hin & Hw); exists h;
    (split; [by apply list_elem_of_In|]);
    by apply within_spec.
Qed.

(** C2: the effective hours of the requested canteen on the requested date
    are the hours of a restriction of that canteen whose inclusive range
    covers the date when there is one, and the nominal hours of the canteen
    otherwise; among the requests that reach step 8, the request is
    rejected with Closed exactly when no effective window contains the
    requested slot. *)
Theorem closed_iff_outside_effective_hours {str_lower : Lower}
    (today : Z) (new_id : string)
    (p : CreateReservationDTO.t) (s : Store)
    (Hpass : passes_steps_before 8
               (ReservationService.create_reservation today new_id p s).1) :
  exists c,
    canteens_table s !! CreateReservationDTO.canteenId p = Some c
    /\ let hours :=
         effective_hours s (CreateReservationDTO.canteenId p) c
           (CreateReservationDTO.date p) in
       ((exists r, covering s (CreateReservationDTO.canteenId p)
                     (CreateReservationDTO.date p) r) ->
        exists r, covering s (CreateReservationDTO.canteenId p)
                    (CreateReservationDTO.date p) r
                  /\ hours = Restriction.workingHours r)
       /\ ((forall r, ~ covering s (CreateReservationDTO.canteenId p)
                        (CreateReservationDTO.date p) r) ->
           hours = Canteen.workingHours c)
       /\ ((ReservationService.create_reservation today new_id p s).1
             = Raise Closed
           <-> ~ exists h, h ∈ hours /\ slot_within p h).
Proof.
  assert (forall c,
    let hours :=
      effective_hours s (CreateReservationDTO.canteenId p) c
        (CreateReservationDTO.date p) in
    ((exists r, covering s (CreateReservationDTO.canteenId p)
                  (CreateReservationDTO.date p) r) ->
     exists r, covering s (CreateReservationDTO.canteenId p)
                 (CreateReservationDTO.date p) r
               /\ hours = Restriction.workingHours r)
    /\ ((forall r, ~ covering s (CreateReservationDTO.canteenId p)
                     (CreateReservationDTO.date p) r) ->
        hours = Canteen.workingHours c)) as Hhours.
  { intros c hours. subst hours.
    destruct (effective_hours_cases s (CreateReservationDTO.canteenId p) c
                (CreateReservationDTO.date p))
      as [(r & Hr & Heq)|[Hno Heq]].
    - split; [by eauto|]. intros H. by destruct (H r).
    - split; [|done]. intros [r Hr]. by destruct (Hno r). }
  revert Hpass.
  pipeline today new_id p s
    ltac:(cbn [fst]; rewrite ?passes_steps_before_Raise; intros Hpass;
          first [ exfalso; simpl in Hpass; lia
                | exists c; split; [done|];
                  destruct (Hhours c) as [H1 H2];
                  split; [exact H1|split; [exact H2|]];
                  rewrite <- is_open_spec, Hopen;
                  first [ split; [done|intros H; by destruct H]
                        | split; [intros _; by intros [=]|done] ] ]).
  cbn [fst]. intros _. exists c. split; [done|].
  destruct (Hhours c) as [H1 H2]. split; [exact H1|split; [exact H2|]].
  rewrite <- is_open_spec, Hopen. split; [done|intros H; by destruct H].
Qed.

Lemma closed_iff_outside_effective_hours_witness :
  let p := Scenario.request "marko" 9 0 30 in
  let run :=
    ReservationService.create_reservation Scenario.today "r9" p
      RestrictedDay.restricted in
  passes_steps_before 8 run.1
  /\ run.1 = Raise Closed
  /\ exists c,
       canteens_table RestrictedDay.restricted !! "menza" = Some c
       /\ ~ exists h, h ∈ effective_hours RestrictedDay.restricted "menza" c
                            Scenario.tomorrow
                      /\ slot_within p h.
Proof.
  intros p run.
  assert (passes_steps_before 8 run.1) as H by (vm_compute; lia).
  assert (run.1 = Raise Closed) as HC by (vm_compute; reflexivity).
  split; [exact H|]. split; [exact HC|].
  destruct (closed_iff_outside_effective_hours Scenario.today "r9" p
              RestrictedDay.restricted H) as (c & Hc & _ & _ & Hiff).
  exists c. split; [exact Hc|]. apply Hiff. exact HC.
Defined.

(** C1: among the requests that reach step 9, the request is rejected with
    CapacityExceeded exactly when the stored Active reservations at the
    requested canteen and date whose slot overlaps the requested one number
    at least [capacity]; with [capacity - 1] of them the reservation is
    created, with [capacity] of them the request is rejected. *)
Theorem capacity_exceeded_iff_slot_full {str_lower : Lower}
    (today : Z) (new_id : string)
    (p : CreateReservationDTO.t) (s : Store)
    (Hpass : passes_steps_before 9
               (ReservationService.create_reservation today new_id p s).1) :
  exists c,
    canteens_table s !! CreateReservationDTO.canteenId p = Some c
    /\ let n := Z.of_nat (length (overlapping_in_slot s p)) in
       ((ReservationService.create_reservation today new_id p s).1
          = Raise CapacityExceeded
        <-> Canteen.capacity c <= n)
       /\ (n = Canteen.capacity c - 1 ->
           (ReservationService.create_reservation today new_id p s).1
           = Ok (new_reservation new_id p))
       /\ (n = Canteen.capacity c ->
           (ReservationService.create_reservation today new_id p s).1
           = Raise CapacityExceeded).
Proof.
  revert Hpass.
  pipeline today new_id p s
    ltac:(cbn [fst]; rewrite ?passes_steps_before_Raise; intros Hpass;
          first [ exfalso; simpl in Hpass; lia
                | exists c; split; [done|]; cbn zeta;
                  repeat split; try done; intros; lia ]).
  cbn [fst]. intros _. exists c. split; [done|]. cbn zeta.
  repeat split; try done; intros; lia.
Qed.

Lemma capacity_exceeded_iff_slot_full_witness :
  let p := Scenario.request "ana" 12 0 30 in
  let run :=
    ReservationService.create_reservation Scenario.today "l3" p
      Bookings.lunch2 in
  passes_steps_before 9 run.1
  /\ length (overlapping_in_slot Bookings.lunch2 p) = 2%nat
  /\ exists c,
       canteens_table Bookings.lunch2 !! "menza" = Some c
       /\ (run.1 = Raise CapacityExceeded
           <-> Canteen.capacity c
               <= Z.of_nat (length (overlapping_in_slot Bookings.lunch2 p))).
Proof.
  intros p run.
  assert (passes_steps_before 9 run.1) as H by (vm_compute; lia).
  split; [exact H|]. split; [vm_compute; reflexivity|].
  destruct (capacity_exceeded_iff_slot_full Scenario.today "l3" p
              Bookings.lunch2 H) as (c & Hc & Hiff & _).
  exists c. split; [exact Hc|exact Hiff].
Defined.

(** ** The restriction engine *)

Section cascade.
Import DynamoRepository CanteenService.

Lemma repo_cancel_table rid s :
  let s' := (DynamoRepository.cancel_reservation rid s).2 in
  (DynamoRepository.cancel_reservation rid s).1
  = Ok (set_status Cancelled <$>
          (parse_item rid <$> reservations_table s !! rid))
  /\ reservations_table s' = alter cancel_item rid (reservations_table s)
  /\ students_table s' = students_table s
  /\ canteens_table s' = canteens_table s
  /\ restrictions s' = restrictions s.
Proof.
  rewrite repo_cancel_run.
  destruct (reservations_table s !! rid) as [it|] eqn:Hit; cbn.
  - repeat split. apply map_eq. intros k.
    destruct (decide (rid = k)) as [->|Hne].
    + by rewrite lookup_insert_eq, lookup_alter_eq, Hit.
    + by rewrite lookup_insert_ne, lookup_alter_ne.
  - repeat split. apply map_eq. intros k.
    destruct (decide (rid = k)) as [->|Hne].
    + by rewrite lookup_alter_eq, Hit.
    + by rewrite lookup_alter_ne.
Qed.

Lemma cascade_run working_hours affected s :
  let s' := (cascade working_hours affected s).2 in
  (cascade working_hours affected s).1 = Ok tt
  /\ reservations_table s'
     = cascade_table working_hours affected (reservations_table s)
  /\ students_table s' = students_table s
  /\ canteens_table s' = canteens_table s
  /\ restrictions s' = restrictions s.
Proof.
  revert s. induction affected as [|res rest IH]; intros s; [done|].
  cbn [cascade cascade_table foldl].
  destruct (admissible working_hours res); [apply IH|].
  destruct (Reservation.id res) as [key|]; [|apply IH].
  rewrite bind_run.
  destruct (repo_cancel_table key s) as (H1 & H2 & H3 & H4 & H5).
  destruct (DynamoRepository.cancel_reservation key s) as [r s1].
  cbn [fst snd] in *. subst r.
  destruct (IH s1) as (I1 & I2 & I3 & I4 & I5).
  unfold cascade_table in *. rewrite <- H2. repeat split; congruence.
Qed.

Lemma cancel_item_idemp it : cancel_item (cancel_item it) = cancel_item it.
Proof. done. Qed.

Lemma cascade_table_cons working_hours res rest table :
  cascade_table working_hours (res :: rest) table =
  cascade_table working_hours rest
    (if admissible working_hours res then table
     else match Reservation.id res with
          | Some key => alter cancel_item key table
          | None => table
          end).
Proof. done. Qed.

Lemma lookup_cascade_table working_hours affected table key :
  cascade_table working_hours affected table !! key =
  if decide (Exists (fun res => Reservation.id res = Some key
                                /\ admissible working_hours res = false)
               affected)
  then cancel_item <$> table !! key else table !! key.
Proof.
  revert table. induction affected as [|res rest IH]; intros table.
  - cbn. rewrite decide_False; [done|]. by intros H%Exists_nil.
  - rewrite cascade_table_cons, IH. clear IH.
    set (P := fun res => Reservation.id res = Some key
                         /\ admissible working_hours res = false).
    destruct (decide (P res)) as [[Hid Hadm]|Hn].
    + rewrite Hadm, Hid, lookup_alter_eq.
      rewrite (decide_True (P:=Exists P (res :: rest)))
        by (apply Exists_cons; by left).
      destruct (decide (Exists P rest)); [|done].
      destruct (table !! key); [|done]. done.
    + assert (Exists P (res :: rest) <-> Exists P rest) as Hiff.
      { rewrite Exists_cons. tauto. }
      rewrite (decide_ext _ _ _ _ Hiff).
      assert ((if admissible working_hours res then table
               else match Reservation.id res with
                    | Some key0 => alter cancel_item key0 table
                    | None => table
                    end) !! key = table !! key) as ->; [|done].
      destruct (admissible working_hours res) eqn:Hadm; [done|].
      destruct (Reservation.id res) as [k|] eqn:Hid; [|done].
      rewrite lookup_alter_ne; [done|].
      intros ->. by apply Hn.
Qed.

Lemma admissible_spec working_hours res :
  admissible working_hours res = true
  <-> exists h, h ∈ working_hours /\ res_within res h.
Proof.
  unfold admissible. rewrite existsb_exists.
  split; intros (h & Hin & Hw); exists h;
    (split; [by apply list_elem_of_In|]);
    by apply within_spec.
Qed.
End cascade.

Section restriction.
Import DynamoRepository CanteenService.

Lemma create_restriction_run new_id actor_id canteen_id payload s :
  exists res s',
    create_restriction new_id actor_id canteen_id payload s = (res, s')
    /\ ((exists e, res = Raise e /\ s' = s)
        \/ (res = Ok (new_restriction new_id canteen_id payload)
            /\ reservations_table s'
               = cascade_table (CreateRestrictionDTO.workingHours payload)
                   (affected_by canteen_id payload s)
                   (reservations_table s)
            /\ restrictions s'
               = restrictions s
                 ++ [new_restriction new_id canteen_id payload]
            /\ students_table s' = students_table s
            /\ canteens_table s' = canteens_table s)).
Proof.
  destruct (create_restriction new_id actor_id canteen_id payload s)
    as [res s'] eqn:Hrun.
  exists res, s'. split; [done|]. revert Hrun.
  unfold create_restriction.
  rewrite bind_run. unfold get_student_by_id at 1, gets.
  destruct (negb (from_option Student.isAdmin false _));
    [intros [= <- <-]; left; by eexists|].
  destruct (CreateRestrictionDTO.endDate payload
            <? CreateRestrictionDTO.startDate payload);
    [intros [= <- <-]; left; by eexists|].
  rewrite bind_run. unfold get_canteen_by_id at 1, gets.
  destruct (canteens_table s !! canteen_id) as [c|];
    [|intros [= <- <-]; left; by eexists].
  cbn [fmap option_fmap option_map].
  destruct (negb (forallb _ _)); [intros [= <- <-]; left; by eexists|].
  rewrite bind_run.
  unfold get_restrictions_by_canteen_id at 1, gets.
  destruct (existsb _ _); [intros [= <- <-]; left; by eexists|].
  rewrite bind_run. unfold add_restriction at 1.
  rewrite bind_run. unfold modify at 1.
  cbn [mret M_ret].
  rewrite bind_run. unfold affected_reservations at 1, gets.
  rewrite bind_run.
  match goal with |- context [cascade ?wh ?l ?s1] =>
    destruct (cascade_run wh l s1) as (H1 & H2 & H3 & H4 & H5);
    destruct (cascade wh l s1) as [r s2] end.
  cbn [fst snd] in *. subst r. intros [= <- <-]. right.
  cbn [reservations_table students_table canteens_table restrictions
       scan_reservations] in *.
  by repeat split.
Qed.

Lemma elem_of_affected_by canteen_id payload s res :
  res ∈ affected_by canteen_id payload s
  <-> exists key it,
        reservations_table s !! key = Some it
        /\ res = parse_item key it
        /\ Item.canteenId it = canteen_id
        /\ Item.status it = Active
        /\ CreateRestrictionDTO.startDate payload <= Item.date it
           <= CreateRestrictionDTO.endDate payload.
Proof.
  unfold affected_by.
  rewrite list_elem_of_filter, elem_of_scan_reservations. split.
  - intros [(? & ? & ?) (key & it & Hl & ->)]. by exists key, it.
  - intros (key & it & Hl & -> & ? & ? & ?). split; [done|eauto].
Qed.

(** What a successful restriction does to each stored reservation. *)
Lemma cascade_table_affected canteen_id payload s key :
  cascade_table (CreateRestrictionDTO.workingHours payload)
    (affected_by canteen_id payload s) (reservations_table s) !! key
  = match reservations_table s !! key with
    | None => None
    | Some it =>
        if bool_decide (Item.canteenId it = canteen_id
                        /\ Item.status it = Active
                        /\ CreateRestrictionDTO.startDate payload
                           <= Item.date it
                           <= CreateRestrictionDTO.endDate payload)
           && negb (admissible (CreateRestrictionDTO.workingHours payload)
                      (parse_item key it))
        then Some (cancel_item it) else Some it
    end.
Proof.
  rewrite lookup_cascade_table.
  destruct (reservations_table s !! key) as [it|] eqn:Hit.
  - case_decide as Hex.
    + apply Exists_exists in Hex as (res & Hin & Hid & Hadm).
      apply elem_of_affected_by in Hin
        as (key' & it' & Hl & -> & ? & ? & ?).
      injection Hid as ->. assert (it' = it) as -> by congruence.
      rewrite Hadm, bool_decide_eq_true_2 by done. done.
    + destruct (bool_decide _ && negb _) eqn:Hb; [|done].
      exfalso. apply Hex. apply andb_true_iff in Hb as [Hb1 Hb2].
      apply bool_decide_eq_true in Hb1. apply negb_true_iff in Hb2.
      apply Exists_exists. exists (parse_item key it).
      split; [|done]. apply elem_of_affected_by.
      exists key, it. by intuition.
  - by case_decide.
Qed.

Lemma hit_by_spec canteen_id payload key it :
  hit_by canteen_id payload key it
  <-> bool_decide (Item.canteenId it = canteen_id
                   /\ Item.status it = Active
                   /\ CreateRestrictionDTO.startDate payload
                      <= Item.date it
                      <= CreateRestrictionDTO.endDate payload)
      && negb (admissible (CreateRestrictionDTO.workingHours payload)
                 (parse_item key it)) = true.
Proof.
  unfold hit_by.
  rewrite andb_true_iff, bool_decide_eq_true, negb_true_iff.
  rewrite <- not_true_iff_false, admissible_spec. tauto.
Qed.
End restriction.

(** C9: after a restriction has been created, the stored reservations that
    are Active, of the canteen, dated in the inclusive range, and whose
    slot is contained in none of the windows of the restriction are
    Cancelled, every other stored reservation is as it was, and no
    reservation appears or disappears.  With breakfast 08:00-10:00 cut to
    08:00-09:00, 08:00-08:30 and 08:30-09:00 stay Active, 08:30-09:30 and
    09:00-09:30 become Cancelled, and 09:00-09:30 of the next day stays
    Active. *)
Theorem cascade_cancels_exactly_the_displaced :
  (forall (new_id actor_id canteen_id : string)
          (payload : CreateRestrictionDTO.t) (s : Store)
          (restriction : Restriction.t),
     (CanteenService.create_restriction new_id actor_id canteen_id
        payload s).1 = Ok restriction ->
     let s' :=
       (CanteenService.create_restriction new_id actor_id canteen_id
          payload s).2 in
     (forall key it,
        reservations_table s !! key = Some it ->
        (hit_by canteen_id payload key it ->
         reservations_table s' !! key = Some (cancel_item it))
        /\ (~ hit_by canteen_id payload key it ->
            reservations_table s' !! key = Some it))
     /\ (forall key,
           reservations_table s !! key = None ->
           reservations_table s' !! key = None)
     /\ restriction ∈ restrictions s')
  /\ status_of CascadeDay.shortened "a" = Some Active
  /\ status_of CascadeDay.shortened "b" = Some Active
  /\ status_of CascadeDay.shortened "c" = Some Cancelled
  /\ status_of CascadeDay.shortened "d" = Some Cancelled
  /\ status_of CascadeDay.shortened "e" = Some Active.
Proof.
  split; [|repeat split; by vm_compute].
  intros new_id actor_id canteen_id payload s restriction Hcreated s'.
  subst s'.
  destruct (create_restriction_run new_id actor_id canteen_id payload s)
    as (res & s' & Hrun & [(e & -> & ->)|(-> & HT & HR & _ & _)]);
    rewrite Hrun in *; cbn [fst snd] in *; try discriminate.
  split; [|split].
  - intros key it Hit. rewrite HT, cascade_table_affected, Hit. split.
    + intros Hhit%hit_by_spec. by rewrite Hhit.
    + intros Hn. destruct (_ && _) eqn:Hb; [|done].
      exfalso. by apply Hn, hit_by_spec.
  - intros key Hnone. by rewrite HT, cascade_table_affected, Hnone.
  - injection Hcreated as <-. rewrite HR. set_solver.
Qed.

Lemma cascade_cancels_exactly_the_displaced_witness :
  let s := CascadeDay.booked in
  let run :=
    CanteenService.create_restriction "x1" "admin" "menza"
      CascadeDay.shorten s in
  let it := CascadeDay.item 8 30 60 Scenario.tomorrow in
  run.1 = Ok (new_restriction "x1" "menza" CascadeDay.shorten)
  /\ reservations_table s !! "c" = Some it
  /\ (hit_by "menza" CascadeDay.shorten "c" it ->
      reservations_table run.2 !! "c" = Some (cancel_item it)).
Proof.
  intros s run it.
  assert (run.1 = Ok (new_restriction "x1" "menza" CascadeDay.shorten))
    as H by (vm_compute; reflexivity).
  assert (reservations_table s !! "c" = Some it)
    as Hit by (vm_compute; reflexivity).
  split; [exact H|]. split; [exact Hit|].
  exact (proj1 (proj1 (proj1 cascade_cancels_exactly_the_displaced
                         "x1" "admin" "menza" CascadeDay.shorten s _ H)
                  "c" it Hit)).
Defined.

(** ** Cancellation is terminal *)

Lemma create_reservation_store {str_lower : Lower} today new_id p s :
  (ReservationService.create_reservation today new_id p s).2 = s
  \/ (ReservationService.create_reservation today new_id p s).2
     = store_put new_id (new_item p) s.
Proof. pipeline today new_id p s ltac:(by left). by right. Qed.

Lemma perform_keeps_cancelled {str_lower : Lower} op s key :
  fresh_id op s ->
  status_of s key = Some Cancelled ->
  status_of (perform op s) key = Some Cancelled.
Proof.
  unfold status_of. intros Hfresh Hc.
  destruct (reservations_table s !! key) as [it|] eqn:Hit; [|done].
  injection Hc as Hc.
  destruct op as [today new_id p|rid sid|new_id actor cid payload|rid];
    unfold perform; unfold fresh_id in Hfresh.
  - destruct (create_reservation_store today new_id p s) as [H|H];
      rewrite H.
    + by rewrite Hit, <- Hc.
    + cbn [store_put reservations_table].
      rewrite lookup_insert_ne by congruence. by rewrite Hit, <- Hc.
  - rewrite service_cancel_run.
    destruct (reservations_table s !! rid) as [it'|] eqn:Hit';
      [|cbn [snd]; by rewrite Hit, <- Hc].
    repeat case_decide; cbn [snd]; try by rewrite Hit, <- Hc.
    cbn [store_put reservations_table].
    destruct (decide (rid = key)) as [->|Hne].
    + by rewrite lookup_insert_eq.
    + rewrite lookup_insert_ne by done. by rewrite Hit, <- Hc.
  - destruct (create_restriction_run new_id actor cid payload s)
      as (res & s' & Hrun & [(e & -> & ->)|(-> & HT & _)]);
      rewrite Hrun; cbn [snd].
    + by rewrite Hit, <- Hc.
    + rewrite HT, cascade_table_affected, Hit.
      destruct (_ && _); [done|]. cbn. by rewrite Hc.
  - cbn. by rewrite Hit, <- Hc.
Qed.

(** C6: no exposed operation, nor any sequence of them, takes a reservation
    from Cancelled back to Active: a reservation that is Cancelled stays
    Cancelled through [create_reservation] (the generated id being one not
    in use), [cancel_reservation], [create_restriction] with its cascade,
    and the removal of a restriction.  A reservation cancelled by the
    cascade of a non-working day is still Cancelled once that restriction
    has been deleted. *)
Theorem cancelled_is_terminal :
  (forall (str_lower : Lower) (ops : list Operation) (s : Store) (key : string),
     fresh_ids ops s ->
     status_of s key = Some Cancelled ->
     status_of (perform_all ops s) key = Some Cancelled)
  /\ status_of (perform_all (take 1 CascadeDay.history) Scenario.store0) "r1"
     = Some Active
  /\ status_of (perform_all (take 2 CascadeDay.history) Scenario.store0) "r1"
     = Some Cancelled
  /\ status_of (perform_all CascadeDay.history Scenario.store0) "r1"
     = Some Cancelled
  /\ restrictions (perform_all CascadeDay.history Scenario.store0) = [].
Proof.
  split; [|repeat split; by vm_compute].
  intros str_lower ops s key. revert s.
  induction ops as [|op ops IH]; intros s Hfresh Hc; [done|].
  destruct Hfresh as [Hop Hrest]. cbn [perform_all].
  apply IH; [done|]. by apply perform_keeps_cancelled.
Qed.

Lemma cancelled_is_terminal_witness :
  let s := perform_all (take 2 CascadeDay.history) Scenario.store0 in
  let ops :=
    [ DeleteRestriction (Some "x1");
      CreateReservation Scenario.today "r2" (Scenario.request "marko" 8 0 60);
      CancelReservation "r1" "marko" ] in
  fresh_ids ops s
  /\ status_of s "r1" = Some Cancelled
  /\ status_of (perform_all ops s) "r1" = Some Cancelled.
Proof.
  intros s ops.
  assert (fresh_ids ops s) as Hf by (vm_compute; by repeat split).
  assert (status_of s "r1" = Some Cancelled)
    as Hc by (vm_compute; reflexivity).
  split; [exact Hf|]. split; [exact Hc|].
  exact (proj1 cancelled_is_terminal scenario_lower ops s "r1" Hf Hc).
Defined.

(** * Further properties of the service and of the repository *)

(** ** The scan of the reservations under puts and deletes *)

Lemma scan_store_put key it s :
  scan_reservations (store_put key it s)
  ≡ₚ parse_item key it :: scan_reservations (store_delete key s).
Proof.
  unfold scan_reservations, store_put, store_delete, set_reservations.
  cbn [reservations_table].
  rewrite <- insert_delete_eq.
  rewrite map_to_list_insert by apply lookup_delete_eq.
  by rewrite fmap_cons.
Qed.

Lemma scan_store_delete key it s :
  reservations_table s !! key = Some it ->
  scan_reservations s
  ≡ₚ parse_item key it :: scan_reservations (store_delete key s).
Proof.
  intros Hit. unfold scan_reservations, store_delete, set_reservations.
  cbn [reservations_table].
  rewrite <- (map_to_list_delete _ _ _ Hit). by rewrite fmap_cons.
Qed.



(** ** When a reservation is created *)

Section created.
Import DynamoRepository ReservationService.

Lemma create_reservation_ok {str_lower : Lower} today new_id p s r :
  (create_reservation today new_id p s).1 = Ok r ->
  r = new_reservation new_id p
  /\ (create_reservation today new_id p s).2
     = store_put new_id (new_item p) s.
Proof.
  pipeline today new_id p s ltac:(by intros [=]).
  cbn [fst snd]. by intros [= <-].
Qed.

Lemma accepted_is_acceptable {str_lower : Lower} today new_id p s r :
  (create_reservation today new_id p s).1 = Ok r -> acceptable today p s.
Proof.
  unfold acceptable.
  pipeline today new_id p s ltac:(by intros [=]).
  intros _.
  apply Z.ltb_ge in Hdate.
  apply negb_false_iff, bool_decide_eq_true in Hduration.
  apply negb_false_iff, bool_decide_eq_true in Hminute.
  apply bool_decide_eq_false in Hlabel.
  apply Z.leb_gt in Hquota. apply Z.leb_gt in Hcapacity.
  apply is_open_spec in Hopen.
  repeat split; try done; try lia.
  exists c, m. repeat split; try done; try lia.
  intros r' Hr Hcf. apply Hconflict, Exists_exists. eauto.
Qed.

Lemma acceptable_is_accepted {str_lower : Lower} today new_id p s :
  acceptable today p s ->
  (create_reservation today new_id p s).1 = Ok (new_reservation new_id p).
Proof.
  unfold acceptable.
  intros (H1 & H2 & H3 & H4 & c' & m' & Hc & Hnc & Hm & Hne & Hq & Ho
          & Hcap).
  revert H4 Hc.
  pipeline today new_id p s
    ltac:(cbn [fst]; intros H4 Hc; exfalso;
          try (injection Hc as <-); try rewrite Hmeal in Hm;
          try (injection Hm as <-);
          first [ apply Z.ltb_lt in Hdate; lia
                | apply negb_true_iff, bool_decide_eq_false in Hduration;
                  contradiction
                | apply negb_true_iff, bool_decide_eq_false in Hminute;
                  contradiction
                | by destruct H4
                | congruence
                | apply Exists_exists in Hconflict as (r & Hr & Hcf);
                  by apply (Hnc r)
                | apply bool_decide_eq_true in Hlabel; contradiction
                | apply Z.leb_le in Hquota; lia
                | apply is_open_spec in Ho; congruence
                | apply Z.leb_le in Hcapacity; lia ]).
  done.
Qed.

(** X1: [create_reservation] returns a reservation exactly when the request
    satisfies every rule of the validator on the store as it is: the date is
    not past, the duration is 30 or 60, the minute is 0 or 30, the student
    and the canteen exist, no Active reservation of the student overlaps,
    the start time falls in a nominal window whose label [str.lower()] does
    not make empty, fewer than two Active reservations of the student on
    that date have that meal, an effective window contains the slot, and
    fewer than [capacity] Active reservations of the canteen on that date
    overlap it.  This holds whatever function [str.lower()] is. *)
Theorem create_reservation_succeeds_iff_acceptable {str_lower : Lower}
    (today : Z)
    (new_id : string) (p : CreateReservationDTO.t) (s : Store) :
  (create_reservation today new_id p s).1 = Ok (new_reservation new_id p)
  <-> acceptable today p s.
Proof.
  split; [apply accepted_is_acceptable|apply acceptable_is_accepted].
Qed.

Lemma create_reservation_succeeds_iff_acceptable_witness :
  let p := Scenario.request "marko" 13 0 30 in
  (create_reservation Scenario.today "r1" p Scenario.store0).1
  = Ok (new_reservation "r1" p)
  /\ acceptable Scenario.today p Scenario.store0.
Proof.
  intros p.
  assert ((create_reservation Scenario.today "r1" p Scenario.store0).1
          = Ok (new_reservation "r1" p)) as Hc by (vm_compute; reflexivity).
  split; [exact Hc|].
  exact (proj1 (create_reservation_succeeds_iff_acceptable Scenario.today
                  "r1" p Scenario.store0) Hc).
Defined.

Lemma new_item_conflicts p :
  valid_time (CreateReservationDTO.time p) ->
  CreateReservationDTO.duration p ∈ [30; 60] ->
  forall key, conflicts_with p (parse_item key (new_item p)).
Proof.
  intros (_ & _ & Hs & Hus) Hd key.
  unfold conflicts_with, requested_end, requested_start, res_end, res_start,
    parse_item, new_item, fromisoformat, strftime_HM, hm, combine,
    time_of_day, minutes, day_us.
  cbn. repeat split.
  all: set_unfold in Hd; destruct Hd as [->|[->|[]]]; lia.
Qed.

(** X2: once [create_reservation] has returned a reservation, the same
    request (its time a Python time) is rejected with Conflict, whatever id
    would be generated: the reservation just stored overlaps it. *)
Theorem repeated_request_conflicts {str_lower : Lower}
    (today : Z) (new_id next_id : string)
    (p : CreateReservationDTO.t) (s : Store) (r : Reservation.t)
    (Hvalid : valid_time (CreateReservationDTO.time p))
    (Hcreated : (create_reservation today new_id p s).1 = Ok r) :
  (create_reservation today next_id p
     (create_reservation today new_id p s).2).1 = Raise Conflict.
Proof.
  destruct (create_reservation_ok _ _ _ _ _ Hcreated) as [-> Hs].
  apply accepted_is_acceptable in Hcreated
    as (H1 & H2 & H3 & H4 & c' & m' & Hc & _).
  rewrite Hs.
  assert (Exists (conflicts_with p)
            (scan_reservations (store_put new_id (new_item p) s))) as Hex.
  { apply Exists_exists. exists (parse_item new_id (new_item p)).
    split; [|by apply new_item_conflicts].
    apply elem_of_scan_reservations. exists new_id, (new_item p).
    split; [|done]. cbn. apply lookup_insert_eq. }
  pipeline today next_id p (store_put new_id (new_item p) s)
    ltac:(cbn [fst]; first [ reflexivity | exfalso;
          cbn [store_put students_table canteens_table] in *;
          first [ apply Z.ltb_lt in Hdate; lia
                | apply negb_true_iff, bool_decide_eq_false in Hduration;
                  contradiction
                | apply negb_true_iff, bool_decide_eq_false in Hminute;
                  contradiction
                | rewrite Hstudent in H4; by destruct H4
                | congruence
                | contradiction ] ]).
  contradiction.
Qed.

Lemma repeated_request_conflicts_witness :
  let p := Scenario.request "marko" 13 0 30 in
  valid_time (CreateReservationDTO.time p)
  /\ (create_reservation Scenario.today "r1" p Scenario.store0).1
     = Ok (new_reservation "r1" p)
  /\ (create_reservation Scenario.today "r2" p
        (create_reservation Scenario.today "r1" p Scenario.store0).2).1
     = Raise Conflict.
Proof.
  intros p.
  assert (valid_time (CreateReservationDTO.time p)) as Hv
    by (vm_compute; repeat split; discriminate).
  assert ((create_reservation Scenario.today "r1" p Scenario.store0).1
          = Ok (new_reservation "r1" p)) as Hc by (vm_compute; reflexivity).
  split; [exact Hv|]. split; [exact Hc|].
  exact (repeated_request_conflicts Scenario.today "r1" "r2" p
           Scenario.store0 _ Hv Hc).
Defined.

(** The model of a created reservation as it is read back: the time has gone
    through [strftime("%H:%M")]. *)
Lemma parse_new_item key p :
  parse_item key (new_item p)
  = Reservation.mk (Some key) (CreateReservationDTO.studentId p)
      (CreateReservationDTO.canteenId p) (CreateReservationDTO.date p)
      (hm (hour (CreateReservationDTO.time p))
          (minute (CreateReservationDTO.time p)))
      (CreateReservationDTO.duration p) Active.
Proof. done. Qed.

(** X3: a created reservation is found again under its id, in the list of
    its student and in the Active list of its canteen and date, with the
    seconds and microseconds of its time dropped; what is read back is the
    reservation [create_reservation] returned exactly when the requested
    time had none. *)
Theorem created_reservation_is_read_back {str_lower : Lower}
    (today : Z) (new_id : string)
    (p : CreateReservationDTO.t) (s : Store) (r : Reservation.t)
    (Hcreated : (create_reservation today new_id p s).1 = Ok r) :
  let s' := (create_reservation today new_id p s).2 in
  let stored := parse_item new_id (new_item p) in
  (get_reservation_by_id new_id s').1 = Ok (Some stored)
  /\ Reservation.time stored
     = hm (hour (CreateReservationDTO.time p))
          (minute (CreateReservationDTO.time p))
  /\ (Reservation.id stored = Reservation.id r
      /\ Reservation.studentId stored = Reservation.studentId r
      /\ Reservation.canteenId stored = Reservation.canteenId r
      /\ Reservation.date stored = Reservation.date r
      /\ Reservation.duration stored = Reservation.duration r
      /\ Reservation.status stored = Reservation.status r)
  /\ (stored = r
      <-> second (CreateReservationDTO.time p) = 0
          /\ microsecond (CreateReservationDTO.time p) = 0)
  /\ (exists l, (get_reservations_by_student_id
                   (CreateReservationDTO.studentId p) s').1 = Ok l
                /\ stored ∈ l)
  /\ (exists l, (get_active_reservations_by_canteen_and_date
                   (Some (CreateReservationDTO.canteenId p))
                   (CreateReservationDTO.date p) s').1 = Ok l
                /\ stored ∈ l).
Proof.
  intros s' stored. subst s' stored.
  destruct (create_reservation_ok _ _ _ _ _ Hcreated) as [-> ->].
  assert (parse_item new_id (new_item p)
          ∈ scan_reservations (store_put new_id (new_item p) s)) as Hin.
  { apply elem_of_scan_reservations. exists new_id, (new_item p).
    split; [|done]. cbn. apply lookup_insert_eq. }
  split; [|split; [done|split; [done|split; [|split]]]].
  - unfold get_reservation_by_id, gets. cbn.
    by rewrite lookup_insert_eq.
  - rewrite parse_new_item. unfold new_reservation, hm.
    destruct (CreateReservationDTO.time p) as [h m sec us]. cbn.
    split.
    + by intros [= -> ->].
    + by intros [-> ->].
  - eexists. split; [done|]. by apply list_elem_of_filter.
  - eexists. split; [done|]. by apply list_elem_of_filter.
Qed.

Lemma created_reservation_is_read_back_witness :
  let p := CreateReservationDTO.mk "marko" "menza" Scenario.tomorrow
             (mk_time 13 0 15 0) 30 in
  let run := create_reservation Scenario.today "r1" p Scenario.store0 in
  run.1 = Ok (new_reservation "r1" p)
  /\ (get_reservation_by_id "r1" run.2).1
     = Ok (Some (parse_item "r1" (new_item p)))
  /\ Reservation.time (parse_item "r1" (new_item p)) = hm 13 0.
Proof.
  intros p run.
  assert (run.1 = Ok (new_reservation "r1" p))
    as Hc by (vm_compute; reflexivity).
  split; [exact Hc|].
  destruct (created_reservation_is_read_back Scenario.today "r1" p
              Scenario.store0 _ Hc) as (H1 & H2 & _).
  split; [exact H1|exact H2].
Defined.

(** X4: a reservation can be cancelled once: after [cancel_reservation] has
    returned, the same call raises AlreadyCancelled and writes nothing. *)
Theorem second_cancel_is_rejected (reservation_id student_id : string)
    (s : Store) (r : option Reservation.t)
    (Hcancelled :
       (cancel_reservation reservation_id student_id s).1 = Ok r) :
  let s' := (cancel_reservation reservation_id student_id s).2 in
  cancel_reservation reservation_id student_id s'
  = (Raise AlreadyCancelled, s').
Proof.
  intros s'. subst s'. revert Hcancelled.
  rewrite (service_cancel_run reservation_id student_id s).
  destruct (reservations_table s !! reservation_id) as [it|]; [|done].
  destruct (decide (Item.studentId it ≠ student_id)) as [|Heq]; [done|].
  destruct (decide (Item.status it = Cancelled)); [done|].
  intros _. cbn [snd]. rewrite service_cancel_run.
  cbn [store_put reservations_table]. rewrite lookup_insert_eq.
  cbn [cancel_item Item.studentId Item.status].
  rewrite decide_False by done. by rewrite decide_True.
Qed.

Lemma second_cancel_is_rejected_witness :
  let run := cancel_reservation "r1" "marko" Scenario.store1 in
  (exists r, run.1 = Ok r)
  /\ cancel_reservation "r1" "marko" run.2 = (Raise AlreadyCancelled, run.2).
Proof.
  intros run.
  assert (run.1 = Ok (Some (set_status Cancelled
            (parse_item "r1" (Item.mk "marko" "menza" 739001 (13, 0) 30
                                Active)))))
    as Hc by (vm_compute; reflexivity).
  split; [by eexists|].
  exact (second_cancel_is_rejected "r1" "marko" Scenario.store1 _ Hc).
Defined.

(** ** Reservations that are not Active *)

Lemma filter_active_perm (P : Reservation.t -> Prop)
    `{!forall r, Decision (P r)} (l1 l2 : list Reservation.t) :
  (forall r, P r -> Reservation.status r = Active) ->
  filter (fun r => Reservation.status r = Active) l1
  ≡ₚ filter (fun r => Reservation.status r = Active) l2 ->
  filter P l1 ≡ₚ filter P l2.
Proof.
  intros HP Hperm.
  rewrite <- (list_filter_filter_l P
                (fun r => Reservation.status r = Active) l1) by done.
  rewrite <- (list_filter_filter_l P
                (fun r => Reservation.status r = Active) l2) by done.
  by rewrite Hperm.
Qed.

(** The result of [create_reservation] depends on the reservations only
    through the Active ones. *)
Lemma create_reservation_result_ext {str_lower : Lower} today new_id p s1 s2 :
  students_table s1 = students_table s2 ->
  canteens_table s1 = canteens_table s2 ->
  restrictions s1 = restrictions s2 ->
  filter (fun r => Reservation.status r = Active) (scan_reservations s1)
  ≡ₚ filter (fun r => Reservation.status r = Active)
       (scan_reservations s2) ->
  (create_reservation today new_id p s1).1
  = (create_reservation today new_id p s2).1.
Proof.
  intros Hst Hct Hrs Hperm.
  assert (Exists (conflicts_with p) (scan_reservations s1)
          <-> Exists (conflicts_with p) (scan_reservations s2)) as Hconf.
  { assert (filter (conflicts_with p) (scan_reservations s1)
            ≡ₚ filter (conflicts_with p) (scan_reservations s2)) as Hf.
    { apply filter_active_perm; [|done]. by intros r (_ & ? & _). }
    rewrite !Exists_exists. split; intros (r & Hr & Hc); exists r;
      (split; [|done]).
    - assert (r ∈ filter (conflicts_with p) (scan_reservations s2)) as Hin.
      { rewrite <- Hf. by apply list_elem_of_filter. }
      by apply list_elem_of_filter in Hin as [_ ?].
    - assert (r ∈ filter (conflicts_with p) (scan_reservations s1)) as Hin.
      { rewrite Hf. by apply list_elem_of_filter. }
      by apply list_elem_of_filter in Hin as [_ ?]. }
  assert (forall m, length (same_meal s1 p m) = length (same_meal s2 p m))
    as Hmeals.
  { intros m. unfold same_meal.
    rewrite (list_filter_iff _
      (fun r => Reservation.studentId r = CreateReservationDTO.studentId p
                /\ Reservation.status r = Active
                /\ Reservation.date r = CreateReservationDTO.date p
                /\ meal_of s2 r = Some m) (scan_reservations s1)).
    2:{ intros r. unfold meal_of. by rewrite Hct. }
    apply Permutation_length, filter_active_perm; [|done].
    by intros r (_ & ? & _). }
  assert (length (overlapping_in_slot s1 p)
          = length (overlapping_in_slot s2 p)) as Hslot.
  { apply Permutation_length, filter_active_perm; [|done].
    by intros r (_ & ? & _). }
  assert (forall c, is_open s1 p c = is_open s2 p c) as Hopen.
  { intros c. unfold is_open, effective_hours. by rewrite Hrs. }
  rewrite !create_reservation_run, Hst, Hct, Hslot.
  destruct (CreateReservationDTO.date p <? today); [done|].
  destruct (negb (bool_decide (CreateReservationDTO.duration p ∈ _)));
    [done|].
  destruct (negb (bool_decide (minute _ ∈ _))); [done|].
  destruct (students_table s2 !! _); [|done].
  destruct (canteens_table s2 !! _) as [c|]; [|done].
  rewrite (bool_decide_ext _ _ Hconf).
  destruct (bool_decide _); [done|].
  destruct (classifyMeal _ _) as [m|]; [|done].
  destruct (bool_decide (m = EmptyString)); [done|].
  rewrite Hmeals, Hopen.
  destruct (2 <=? _); [done|].
  destruct (is_open s2 p c); [|done]. cbn [negb].
  by destruct (Canteen.capacity c <=? _).
Qed.

(** X5: a stored reservation that is not Active counts for nothing in the
    validator: every request gets the result it would get if that
    reservation had been deleted. *)
Theorem inactive_reservation_is_ignored {str_lower : Lower}
    (key : string) (it : Item.t)
    (s : Store)
    (Hstored : reservations_table s !! key = Some it)
    (Hinactive : Item.status it ≠ Active) :
  forall today new_id p,
    (create_reservation today new_id p s).1
    = (create_reservation today new_id p (store_delete key s)).1.
Proof.
  intros today new_id p.
  apply create_reservation_result_ext; try done.
  rewrite (scan_store_delete key it s Hstored), filter_cons.
  by rewrite decide_False.
Qed.

Lemma inactive_reservation_is_ignored_witness :
  let s := (cancel_reservation "r1" "marko" Scenario.store1).2 in
  let it := cancel_item (Item.mk "marko" "menza" 739001 (13, 0) 30 Active) in
  let p := Scenario.request "marko" 13 0 30 in
  reservations_table s !! "r1" = Some it
  /\ Item.status it ≠ Active
  /\ (create_reservation Scenario.today "r2" p s).1
     = (create_reservation Scenario.today "r2" p (store_delete "r1" s)).1.
Proof.
  intros s it p.
  assert (reservations_table s !! "r1" = Some it)
    as Hit by (vm_compute; reflexivity).
  assert (Item.status it ≠ Active) as Hst by (vm_compute; discriminate).
  split; [exact Hit|]. split; [exact Hst|].
  exact (inactive_reservation_is_ignored "r1" it s Hit Hst
           Scenario.today "r2" p).
Defined.

Lemma scan_put_delete key a s :
  reservations_table s !! key = None ->
  scan_reservations (store_delete key (store_put key a s))
  = scan_reservations s.
Proof.
  intros Hnone.
  unfold scan_reservations, store_delete, set_reservations, store_put.
  cbn [reservations_table]. by rewrite delete_insert_eq, delete_id.
Qed.

(** X6: a reservation that was created and then cancelled by its student
    leaves the validator where it was: the request that created it is
    accepted again (the first id being one not in use before). *)
Theorem cancelled_slot_can_be_booked_again {str_lower : Lower} (today : Z)
    (new_id next_id : string) (p : CreateReservationDTO.t) (s : Store)
    (r : Reservation.t)
    (Hfresh : reservations_table s !! new_id = None)
    (Hcreated : (create_reservation today new_id p s).1 = Ok r) :
  let s1 := (create_reservation today new_id p s).2 in
  let s2 :=
    (cancel_reservation new_id (CreateReservationDTO.studentId p) s1).2 in
  (cancel_reservation new_id (CreateReservationDTO.studentId p) s1).1
  = Ok (Some (set_status Cancelled (parse_item new_id (new_item p))))
  /\ (create_reservation today next_id p s2).1
     = Ok (new_reservation next_id p).
Proof.
  intros s1 s2. subst s1 s2.
  pose proof (accepted_is_acceptable _ _ _ _ _ Hcreated) as Hacc.
  destruct (create_reservation_ok _ _ _ _ _ Hcreated) as [-> ->].
  rewrite service_cancel_run. cbn [store_put reservations_table].
  rewrite lookup_insert_eq. cbn [new_item Item.studentId Item.status].
  rewrite decide_False by (intros H; by apply H).
  rewrite decide_False by done. cbn [fst snd].
  split; [done|].
  rewrite <- (acceptable_is_accepted today next_id p s Hacc).
  apply create_reservation_result_ext; try done.
  match goal with |- context [scan_reservations (store_put ?k ?a ?s0)] =>
    rewrite (scan_store_put k a s0) end.
  rewrite filter_cons, decide_False by done.
  by rewrite scan_put_delete.
Qed.

Lemma cancelled_slot_can_be_booked_again_witness :
  let p := Scenario.request "marko" 13 0 30 in
  let s1 := (create_reservation Scenario.today "r1" p Scenario.store0).2 in
  let s2 := (cancel_reservation "r1" "marko" s1).2 in
  reservations_table Scenario.store0 !! "r1" = None
  /\ (create_reservation Scenario.today "r1" p Scenario.store0).1
     = Ok (new_reservation "r1" p)
  /\ (create_reservation Scenario.today "r2" p s2).1
     = Ok (new_reservation "r2" p).
Proof.
  intros p s1 s2.
  assert (reservations_table Scenario.store0 !! "r1" = None)
    as Hf by (vm_compute; reflexivity).
  assert ((create_reservation Scenario.today "r1" p Scenario.store0).1
          = Ok (new_reservation "r1" p)) as Hc by (vm_compute; reflexivity).
  split; [exact Hf|]. split; [exact Hc|].
  exact (proj2 (cancelled_slot_can_be_booked_again Scenario.today "r1" "r2"
                  p Scenario.store0 _ Hf Hc)).
Defined.

(** ** Invariants the service keeps *)

Lemma create_reservation_raise {str_lower : Lower} today new_id p s e :
  (create_reservation today new_id p s).1 = Raise e ->
  (create_reservation today new_id p s).2 = s.
Proof.
  pipeline today new_id p s ltac:(done). by intros [=].
Qed.

Lemma elem_of_scan_store_put key a s r :
  r ∈ scan_reservations (store_put key a s)
  <-> r = parse_item key a
      \/ (r ∈ scan_reservations s /\ Reservation.id r ≠ Some key).
Proof.
  rewrite !elem_of_scan_reservations. cbn [store_put reservations_table].
  split.
  - intros (k & it & Hl & ->). apply lookup_insert_Some in Hl
      as [[-> ->]|[Hne Hl]]; [by left|].
    right. split; [by eauto|]. cbn. congruence.
  - intros [->|[(k & it & Hl & ->) Hne]].
    + exists key, a. by rewrite lookup_insert_eq.
    + exists k, it. split; [|done]. rewrite lookup_insert_ne; [done|].
      cbn in Hne. congruence.
Qed.

(** The slot of a stored reservation starts and ends on whole minutes. *)
Lemma stored_slot_on_minutes key it :
  exists a b, res_start (parse_item key it) = a * 60000000
              /\ res_end (parse_item key it) = b * 60000000.
Proof.
  destruct it as [? ? d [h m] dur ?].
  exists (d * 1440 + h * 60 + m), (d * 1440 + h * 60 + m + dur).
  unfold res_end, res_start, parse_item, fromisoformat, hm, combine,
    time_of_day, minutes, day_us. cbn. lia.
Qed.

(** The stored slot of a new reservation against the requested one. *)
Lemma new_slot_bounds p key :
  valid_time (CreateReservationDTO.time p) ->
  exists a,
    res_start (parse_item key (new_item p)) = a * 60000000
    /\ res_end (parse_item key (new_item p))
       = a * 60000000 + minutes (CreateReservationDTO.duration p)
    /\ a * 60000000 <= requested_start p < a * 60000000 + 60000000
    /\ requested_end p
       = requested_start p + minutes (CreateReservationDTO.duration p).
Proof.
  intros (_ & _ & Hs & Hus).
  exists (CreateReservationDTO.date p * 1440
          + hour (CreateReservationDTO.time p) * 60
          + minute (CreateReservationDTO.time p)).
  unfold requested_end, requested_start, res_end, res_start, parse_item,
    new_item, fromisoformat, strftime_HM, hm, combine, time_of_day, minutes,
    day_us. cbn. lia.
Qed.

(** A stored reservation that overlaps the stored slot of a new reservation
    overlaps the requested slot. *)
Lemma overlap_stored_is_overlap_requested p key s r :
  valid_time (CreateReservationDTO.time p) ->
  r ∈ scan_reservations s ->
  res_start (parse_item key (new_item p)) < res_end r ->
  res_start r < res_end (parse_item key (new_item p)) ->
  requested_start p < res_end r /\ res_start r < requested_end p.
Proof.
  intros Hv Hr H1 H2.
  apply elem_of_scan_reservations in Hr as (k & it & _ & ->).
  destruct (stored_slot_on_minutes k it) as (a & b & Ha & Hb).
  destruct (new_slot_bounds p key Hv) as (n & Hn1 & Hn2 & Hn3 & Hn4).
  rewrite Ha, Hb, Hn1, Hn2 in *. unfold minutes in *. lia.
Qed.





(** X8: no student is ever double-booked: if no two Active reservations of
    one student overlap, the same is true after [create_reservation] (the
    time of the request a Python time, the generated id not in use) and
    after [cancel_reservation], whether they return or raise. *)
Theorem no_double_booking_is_kept {str_lower : Lower} :
  (forall (today : Z) (new_id : string) (p : CreateReservationDTO.t)
          (s : Store),
     valid_time (CreateReservationDTO.time p) ->
     reservations_table s !! new_id = None ->
     no_double_booking s ->
     no_double_booking (create_reservation today new_id p s).2)
  /\ (forall (reservation_id student_id : string) (s : Store),
        no_double_booking s ->
        no_double_booking
          (cancel_reservation reservation_id student_id s).2).
Proof.
  split.
  - intros today new_id p s Hv Hfresh Hinv.
    destruct (create_reservation today new_id p s).1 as [r|e] eqn:Hres.
    2:{ by rewrite (create_reservation_raise _ _ _ _ _ Hres). }
    pose proof (accepted_is_acceptable _ _ _ _ _ Hres)
      as (_ & _ & _ & _ & c' & m' & _ & Hnc & _).
    destruct (create_reservation_ok _ _ _ _ _ Hres) as [_ ->].
    intros r1 r2 Hr1 Hr2 Hid Hst Ha1 Ha2 [Ho1 Ho2].
    apply elem_of_scan_store_put in Hr1 as [->|[Hr1 _]];
      apply elem_of_scan_store_put in Hr2 as [->|[Hr2 _]].
    + done.
    + apply (Hnc r2 Hr2). split; [done|]. split; [done|].
      apply (overlap_stored_is_overlap_requested p new_id s r2 Hv Hr2);
        done.
    + apply (Hnc r1 Hr1). split; [done|]. split; [done|].
      apply (overlap_stored_is_overlap_requested p new_id s r1 Hv Hr1);
        done.
    + by apply (Hinv r1 r2).
  - intros reservation_id student_id s Hinv.
    rewrite service_cancel_run.
    destruct (reservations_table s !! reservation_id) as [it|] eqn:Hit;
      [|done].
    repeat case_decide; try done. cbn [snd].
    intros r1 r2 Hr1 Hr2 Hid Hst Ha1 Ha2 Ho.
    apply elem_of_scan_store_put in Hr1 as [->|[Hr1 _]]; [done|].
    apply elem_of_scan_store_put in Hr2 as [->|[Hr2 _]]; [done|].
    by apply (Hinv r1 r2).
Qed.

Lemma no_double_booking_store0 : no_double_booking Scenario.store0.
Proof.
  intros r1 r2 Hr1. unfold scan_reservations in Hr1.
  cbn [Scenario.store0 reservations_table] in Hr1.
  rewrite map_to_list_empty in Hr1. by apply elem_of_nil in Hr1.
Defined.

Lemma no_double_booking_is_kept_witness :
  let p1 := Scenario.request "marko" 13 0 30 in
  let p2 := Scenario.request "marko" 13 30 30 in
  valid_time (CreateReservationDTO.time p2)
  /\ reservations_table Scenario.store1 !! "r2" = None
  /\ no_double_booking Scenario.store1
  /\ no_double_booking
       (create_reservation Scenario.today "r2" p2 Scenario.store1).2.
Proof.
  intros p1 p2.
  assert (valid_time (CreateReservationDTO.time p2)) as Hv
    by (vm_compute; repeat split; discriminate).
  assert (valid_time (CreateReservationDTO.time p1)) as Hv1
    by (vm_compute; repeat split; discriminate).
  assert (reservations_table Scenario.store0 !! "r1" = None)
    as Hf1 by (vm_compute; reflexivity).
  assert (reservations_table Scenario.store1 !! "r2" = None)
    as Hf2 by (vm_compute; reflexivity).
  assert (no_double_booking Scenario.store1) as Hinv
    by exact (proj1 no_double_booking_is_kept Scenario.today "r1" p1
                Scenario.store0 Hv1 Hf1 no_double_booking_store0).
  split; [exact Hv|]. split; [exact Hf2|]. split; [exact Hinv|].
  exact (proj1 no_double_booking_is_kept Scenario.today "r2" p2
           Scenario.store1 Hv Hf2 Hinv).
Defined.
End created.

(** ** Meal classification *)

Section meal.
Import ReservationService.

Lemma classifyMeal_cons {str_lower : Lower} t h hours :
  classifyMeal t (h :: hours)
  = if decide (holds_time t h) then Some (lower (WorkingHour.meal h))
    else classifyMeal t hours.
Proof.
  unfold classifyMeal, holds_time. cbn [List.find].
  destruct (_ && _) eqn:Hb.
  - apply andb_true_iff in Hb as [?%Z.leb_le ?%Z.ltb_lt].
    by rewrite decide_True.
  - apply andb_false_iff in Hb. rewrite decide_False; [done|].
    rewrite Z.leb_gt, Z.ltb_ge in Hb. lia.
Qed.

Lemma classifyMeal_Some {str_lower : Lower} t hours m :
  classifyMeal t hours = Some m <->
  exists before h after,
    hours = before ++ h :: after
    /\ (forall h', h' ∈ before -> ~ holds_time t h')
    /\ holds_time t h
    /\ m = lower (WorkingHour.meal h).
Proof.
  revert m. induction hours as [|h hours IH]; intros m.
  - split; [done|]. intros (before & h & after & Heq & _).
    by destruct before.
  - rewrite classifyMeal_cons. case_decide as Hh.
    + split.
      * intros [= <-]. exists [], h, hours.
        split; [done|]. split; [|by split].
        intros h' Hin. by apply elem_of_nil in Hin.
      * intros (before & h0 & after & Heq & Hb & Hh0 & ->).
        destruct before as [|b before].
        -- by injection Heq as <- _.
        -- injection Heq as <- _. exfalso. apply (Hb h); [by left|done].
    + rewrite IH. split.
      * intros (before & h0 & after & -> & Hb & Hh0 & ->).
        exists (h :: before), h0, after.
        split; [done|]. split; [|by split].
        intros h' [->|Hin]%elem_of_cons; [done|by apply Hb].
      * intros (before & h0 & after & Heq & Hb & Hh0 & ->).
        destruct before as [|b before].
        -- injection Heq as <- _. done.
        -- injection Heq as <- ->. exists before, h0, after.
           split; [done|]. split; [|by split].
           intros h' Hin. apply Hb. by right.
Qed.

Lemma classifyMeal_None {str_lower : Lower} t hours :
  classifyMeal t hours = None <-> forall h, h ∈ hours -> ~ holds_time t h.
Proof.
  induction hours as [|h hours IH].
  - split; [|done]. intros _ h Hin. by apply elem_of_nil in Hin.
  - rewrite classifyMeal_cons. case_decide as Hh.
    + split; [done|]. intros Hall. exfalso. apply (Hall h); [by left|done].
    + rewrite IH. split.
      * intros Hall h' [->|Hin]%elem_of_cons; [done|by apply Hall].
      * intros Hall h' Hin. apply Hall. by right.
Qed.

(** X9: [_get_meal_type] returns [str.lower()] of the label of the first
    window that holds the time of day, start included and end excluded, and
    [None] exactly when no window holds it; the result does not depend on
    the dummy date.  This holds whatever function [str.lower()] is. *)
Theorem get_meal_type_first_window {str_lower : Lower} (dummy_date : Z)
    (t : pytime) (hours : list WorkingHour.t) :
  (forall m,
     _get_meal_type dummy_date t hours = Some m <->
     exists before h after,
       hours = before ++ h :: after
       /\ (forall h', h' ∈ before -> ~ holds_time t h')
       /\ holds_time t h
       /\ m = lower (WorkingHour.meal h))
  /\ (_get_meal_type dummy_date t hours = None
      <-> forall h, h ∈ hours -> ~ holds_time t h)
  /\ (forall other_date,
        _get_meal_type other_date t hours
        = _get_meal_type dummy_date t hours).
Proof.
  rewrite get_meal_type_classify.
  split; [|split].
  - apply classifyMeal_Some.
  - apply classifyMeal_None.
  - intros other_date. by rewrite get_meal_type_classify.
Qed.

Lemma get_meal_type_first_window_witness :
  let hours := Canteen.workingHours Scenario.menza in
  _get_meal_type Scenario.today (hm 12 30) hours = Some "lunch"
  /\ exists before h after,
       hours = before ++ h :: after
       /\ (forall h', h' ∈ before -> ~ holds_time (hm 12 30) h')
       /\ holds_time (hm 12 30) h
       /\ "lunch" = lower (WorkingHour.meal h).
Proof.
  intros hours.
  assert (_get_meal_type Scenario.today (hm 12 30) hours = Some "lunch")
    as H by (vm_compute; reflexivity).
  split; [exact H|].
  exact (proj1 (proj1 (get_meal_type_first_window Scenario.today (hm 12 30)
                         hours) "lunch") H).
Defined.

(** X10: the two tests on working hours agree in one direction: when a slot
    of positive duration is fully contained in a window, the interval test
    of [_check_capacity], its start time is classified by [_get_meal_type]
    against any list that has the window. *)
Theorem contained_slot_is_classified {str_lower : Lower}
    (date dummy_date : Z) (t : pytime)
    (duration : Z) (h : WorkingHour.t) (hours : list WorkingHour.t)
    (Hduration : 0 < duration)
    (Hin : h ∈ hours)
    (Hwithin : window_holds date (combine date t)
                 (combine date t + minutes duration) h = true) :
  is_Some (_get_meal_type dummy_date t hours).
Proof.
  rewrite get_meal_type_classify.
  destruct (classifyMeal t hours) as [m|] eqn:Hm; [done|].
  exfalso. apply (proj1 (classifyMeal_None t hours) Hm h Hin).
  apply within_spec in Hwithin. unfold holds_time.
  unfold combine, minutes in Hwithin. lia.
Qed.

Lemma contained_slot_is_classified_witness :
  (0 < 30)
  /\ Scenario.lunch ∈ Canteen.workingHours Scenario.menza
  /\ window_holds Scenario.tomorrow (combine Scenario.tomorrow (hm 14 30))
       (combine Scenario.tomorrow (hm 14 30) + minutes 30) Scenario.lunch
     = true
  /\ is_Some (_get_meal_type Scenario.today (hm 14 30)
                (Canteen.workingHours Scenario.menza)).
Proof.
  assert (0 < 30) as H1 by lia.
  assert (Scenario.lunch ∈ Canteen.workingHours Scenario.menza) as H2
    by (vm_compute; apply list_elem_of_In; right; left; reflexivity).
  assert (window_holds Scenario.tomorrow
            (combine Scenario.tomorrow (hm 14 30))
            (combine Scenario.tomorrow (hm 14 30) + minutes 30)
            Scenario.lunch = true) as H3 by (vm_compute; reflexivity).
  split; [exact H1|]. split; [exact H2|]. split; [exact H3|].
  exact (contained_slot_is_classified Scenario.tomorrow Scenario.today
           (hm 14 30) 30 Scenario.lunch _ H1 H2 H3).
Defined.
End meal.

(** ** Students *)

Section students.
Import DynamoRepository DynamoRepositoryAdmin.

Lemma elem_of_students_by_email email s st :
  st ∈ students_by_email email s
  <-> exists key stored,
        students_table s !! key = Some stored
        /\ Student.email stored = email
        /\ st = Student.mk (Some key) (Student.name stored)
                  (Student.email stored) (Student.isAdmin stored).
Proof.
  unfold students_by_email. rewrite list_elem_of_fmap. split.
  - intros ([key stored] & -> & Hin).
    apply list_elem_of_filter in Hin as [Hmail Hin].
    apply elem_of_map_to_list in Hin. by exists key, stored.
  - intros (key & stored & Hl & Hmail & ->). exists (key, stored).
    split; [done|]. apply list_elem_of_filter. split; [done|].
    by apply elem_of_map_to_list.
Qed.

Lemma students_by_email_nil email s :
  students_by_email email s = []
  <-> forall key stored,
        students_table s !! key = Some stored ->
        Student.email stored ≠ email.
Proof.
  split.
  - intros Hnil key stored Hl Hmail.
    assert (Student.mk (Some key) (Student.name stored)
              (Student.email stored) (Student.isAdmin stored)
            ∈ students_by_email email s) as Hin.
    { apply elem_of_students_by_email. by exists key, stored. }
    rewrite Hnil in Hin. by apply elem_of_nil in Hin.
  - intros Hall. destruct (students_by_email email s) as [|st l] eqn:Heq;
      [done|].
    assert (st ∈ students_by_email email s) as Hin
      by (rewrite Heq; by left).
    apply elem_of_students_by_email in Hin as (key & stored & Hl & Hm & _).
    by destruct (Hall key stored Hl).
Qed.

(** X11: [add_student] keeps emails unique: it raises and writes nothing
    when a stored student already has the email, it stores the student under
    the new id otherwise, and a store in which no two students share an
    email stays so (the generated id being one not in use). *)
Theorem add_student_keeps_emails_unique (new_id : string)
    (data : Student.t) (s : Store)
    (Hfresh : students_table s !! new_id = None)
    (Hunique : unique_emails s) :
  let run := add_student new_id data s in
  let stored :=
    Student.mk (Some new_id) (Student.name data) (Student.email data)
      (Student.isAdmin data) in
  unique_emails run.2
  /\ ((exists key st, students_table s !! key = Some st
                      /\ Student.email st = Student.email data) ->
      run = (inl EmailExists, s))
  /\ ((forall key st, students_table s !! key = Some st ->
                      Student.email st ≠ Student.email data) ->
      run = (inr stored,
             set_students (<[new_id := stored]> (students_table s)) s)).
Proof.
  intros run stored. subst run stored. unfold add_student.
  destruct (students_by_email (Student.email data) s) as [|st l] eqn:Heq.
  - pose proof (proj1 (students_by_email_nil _ _) Heq) as Hnone.
    split; [|split].
    + intros k1 k2 st1 st2. cbn [snd set_students students_table].
      intros [[<- <-]|[? H1]]%lookup_insert_Some
             [[<- <-]|[? H2]]%lookup_insert_Some Hmail; try done.
      * cbn in Hmail. by destruct (Hnone k2 st2 H2).
      * cbn in Hmail. by destruct (Hnone k1 st1 H1).
      * by apply (Hunique k1 k2 st1 st2).
    + intros (key & st & Hl & Hmail). by destruct (Hnone key st Hl).
    + done.
  - split; [done|split]; [done|].
    intros Hnone. apply students_by_email_nil in Hnone. congruence.
Qed.

Lemma unique_emails_store0 : unique_emails Scenario.store0.
Proof.
  intros k1 k2 st1 st2 H1 H2 Hmail.
  cbn [Scenario.store0 students_table] in H1, H2.
  repeat (apply lookup_insert_Some in H1 as [[<- <-]|[? H1]]);
    try apply lookup_singleton_Some in H1 as [<- <-];
    repeat (apply lookup_insert_Some in H2 as [[<- <-]|[? H2]]);
    try apply lookup_singleton_Some in H2 as [<- <-];
    first [reflexivity | by vm_compute in Hmail].
Defined.

Lemma add_student_keeps_emails_unique_witness :
  let data := Student.mk None "Marko II" "marko@ftn.com" false in
  students_table Scenario.store0 !! "new" = None
  /\ unique_emails Scenario.store0
  /\ add_student "new" data Scenario.store0
     = (inl EmailExists, Scenario.store0).
Proof.
  intros data.
  assert (students_table Scenario.store0 !! "new" = None)
    as Hf by (vm_compute; reflexivity).
  split; [exact Hf|]. split; [exact unique_emails_store0|].
  apply (proj1 (proj2 (add_student_keeps_emails_unique "new" data
                         Scenario.store0 Hf unique_emails_store0))).
  exists "marko", Scenario.marko. split; vm_compute; reflexivity.
Defined.

Lemma head_all_equal {A} (l : list A) (x : A) :
  l ≠ [] -> (forall y, y ∈ l -> y = x) -> head l = Some x.
Proof.
  destruct l as [|y l]; [done|]. intros _ Hall. cbn.
  f_equal. apply Hall. by left.
Qed.

(** X12: a student that [add_student] has stored is found again, the same
    record with its id, both by [get_student_by_id] under the new id and by
    [get_student_by_email] under the email. *)
Theorem added_student_is_found (new_id : string) (data : Student.t)
    (s : Store) (st : Student.t)
    (Hadded : (add_student new_id data s).1 = inr st) :
  let s' := (add_student new_id data s).2 in
  st = Student.mk (Some new_id) (Student.name data) (Student.email data)
         (Student.isAdmin data)
  /\ (get_student_by_id new_id s').1 = Ok (Some st)
  /\ (get_student_by_email (Student.email data) s').1 = Ok (Some st).
Proof.
  intros s'. subst s'. revert Hadded. unfold add_student.
  destruct (students_by_email (Student.email data) s) as [|x l] eqn:Heq;
    [|done].
  pose proof (proj1 (students_by_email_nil _ _) Heq) as Hnone.
  intros [= <-]. cbn [fst snd]. split; [done|]. split.
  - unfold get_student_by_id, gets. cbn.
    by rewrite lookup_insert_eq.
  - unfold get_student_by_email, gets. cbn [fst]. f_equal.
    apply head_all_equal.
    + intros Hnil.
      apply (proj1 (students_by_email_nil _ _) Hnil new_id
               (Student.mk (Some new_id) (Student.name data)
                  (Student.email data) (Student.isAdmin data))); [|done].
      cbn. apply lookup_insert_eq.
    + intros y (key & stored & Hl & Hmail & ->)%elem_of_students_by_email.
      cbn in Hl.
      apply lookup_insert_Some in Hl as [[<- <-]|[_ Hl]]; [done|].
      by destruct (Hnone key stored Hl).
Qed.

Lemma added_student_is_found_witness :
  let data := Student.mk None "Mila" "mila@ftn.com" false in
  let run := add_student "mila" data Scenario.store0 in
  run.1 = inr (Student.mk (Some "mila") "Mila" "mila@ftn.com" false)
  /\ (get_student_by_email "mila@ftn.com" run.2).1
     = Ok (Some (Student.mk (Some "mila") "Mila" "mila@ftn.com" false)).
Proof.
  intros data run.
  assert (run.1 = inr (Student.mk (Some "mila") "Mila" "mila@ftn.com"
                         false)) as H by (vm_compute; reflexivity).
  split; [exact H|].
  exact (proj2 (proj2 (added_student_is_found "mila" data Scenario.store0
                         _ H))).
Defined.

(** X13: [get_student_by_email] returns [None] exactly when no stored
    student has the email; a student it returns has the email and is the
    record stored under the id it carries. *)
Theorem get_student_by_email_finds (email : string) (s : Store) :
  ((get_student_by_email email s).1 = Ok None
   <-> forall key stored, students_table s !! key = Some stored ->
                          Student.email stored ≠ email)
  /\ (forall st,
        (get_student_by_email email s).1 = Ok (Some st) ->
        Student.email st = email
        /\ exists key, Student.id st = Some key
                       /\ (get_student_by_id key s).1 = Ok (Some st))
  /\ (get_student_by_email email s).2 = s.
Proof.
  unfold get_student_by_email, gets. cbn [fst snd].
  split; [|split; [|done]].
  - rewrite <- students_by_email_nil.
    destruct (students_by_email email s); by split.
  - intros st [= Hhead].
    assert (st ∈ students_by_email email s) as Hin.
    { destruct (students_by_email email s) as [|x l]; [done|].
      injection Hhead as ->. by left. }
    apply elem_of_students_by_email in Hin as (key & stored & Hl & Hm & ->).
    split; [done|]. exists key. split; [done|].
    unfold get_student_by_id, gets. cbn. by rewrite Hl.
Qed.

Lemma get_student_by_email_finds_witness :
  (get_student_by_email "jovan@ftn.com" Scenario.store0).1
  = Ok (Some (Student.mk (Some "jovan") "Jovan" "jovan@ftn.com" false))
  /\ (get_student_by_id "jovan" Scenario.store0).1
     = Ok (Some (Student.mk (Some "jovan") "Jovan" "jovan@ftn.com" false)).
Proof.
  assert ((get_student_by_email "jovan@ftn.com" Scenario.store0).1
          = Ok (Some (Student.mk (Some "jovan") "Jovan" "jovan@ftn.com"
                        false))) as H by (vm_compute; reflexivity).
  split; [exact H|].
  destruct (proj1 (proj2 (get_student_by_email_finds "jovan@ftn.com"
                            Scenario.store0)) _ H)
    as (_ & key & Hid & Hget).
  injection Hid as <-. exact Hget.
Defined.
End students.

(** ** Canteens *)

Section canteens.
Import DynamoRepository DynamoRepositoryAdmin.

Lemma dump_working_hour_id h : dump_working_hour h = h <-> on_minutes h.
Proof.
  destruct h as [meal [h1 m1 s1 u1] [h2 m2 s2 u2]].
  unfold dump_working_hour, on_minutes, fromisoformat, strftime_HM, hm.
  cbn. split.
  - by intros [= <- <- <- <-].
  - by intros (-> & -> & -> & ->).
Qed.

Lemma dump_working_hours_id hours :
  dump_working_hour <$> hours = hours <-> Forall on_minutes hours.
Proof.
  induction hours as [|h hours IH]; [by split|].
  rewrite fmap_cons, Forall_cons, <- IH, <- dump_working_hour_id.
  split; [by intros [= -> ->]|by intros [-> ->]].
Qed.

(** X14: a canteen that [add_canteen] has stored is read back under the new
    id with its working hours cut to whole minutes, so that what is read
    back is what [add_canteen] returned exactly when every hour was on a
    whole minute; the canteen is in [get_all_canteens], and the other
    canteens, the students and the reservations are as they were. *)
Theorem added_canteen_is_read_back (new_id : string) (data : Canteen.t)
    (s : Store) :
  let run := add_canteen new_id data s in
  let returned :=
    Canteen.mk (Some new_id) (Canteen.name data) (Canteen.location data)
      (Canteen.capacity data) (Canteen.workingHours data) in
  run.1 = Ok returned
  /\ (get_canteen_by_id new_id run.2).1
     = Ok (Some (dump_canteen new_id data))
  /\ (dump_canteen new_id data = returned
      <-> Forall on_minutes (Canteen.workingHours data))
  /\ (exists l, (get_all_canteens run.2).1 = Ok l
                /\ dump_canteen new_id data ∈ l)
  /\ (forall key, key ≠ new_id ->
        (get_canteen_by_id key run.2).1 = (get_canteen_by_id key s).1)
  /\ students_table run.2 = students_table s
  /\ reservations_table run.2 = reservations_table s.
Proof.
  intros run returned. subst run returned.
  unfold add_canteen. rewrite bind_run. unfold modify. cbn [fst snd].
  cbn [mret M_ret fst snd].
  split; [done|]. split; [|split; [|split; [|split; [|done]]]].
  - unfold get_canteen_by_id, gets. cbn. by rewrite lookup_insert_eq.
  - rewrite <- dump_working_hours_id. unfold dump_canteen. split.
    + by intros [= ->].
    + by intros ->.
  - eexists. split; [done|].
    apply list_elem_of_fmap. exists (new_id, dump_canteen new_id data).
    split; [done|]. apply elem_of_map_to_list. cbn.
    apply lookup_insert_eq.
  - intros key Hne. unfold get_canteen_by_id, gets. cbn.
    by rewrite lookup_insert_ne.
Qed.

Lemma update_canteen_run canteen_id data s :
  update_canteen canteen_id data s =
  match canteens_table s !! canteen_id with
  | None => (Ok None, s)
  | Some c =>
      let updated := model_copy (with_id canteen_id c) data in
      (Ok (Some updated),
       set_canteens
         (<[canteen_id := dump_canteen canteen_id updated]>
            (canteens_table s)) s)
  end.
Proof.
  unfold update_canteen. rewrite bind_run.
  unfold get_canteen_by_id, gets.
  by destruct (canteens_table s !! canteen_id).
Qed.

Lemma added_canteen_is_read_back_witness :
  let data :=
    Canteen.mk None "Nova" "Novi Sad" 50
      [WorkingHour.mk "Lunch" (mk_time 12 0 30 0) (hm 15 0)] in
  let run := add_canteen "nova" data Scenario.store0 in
  "menza" ≠ "nova"
  /\ (get_canteen_by_id "nova" run.2).1
     = Ok (Some (Canteen.mk (Some "nova") "Nova" "Novi Sad" 50
                   [WorkingHour.mk "Lunch" (hm 12 0) (hm 15 0)]))
  /\ (get_canteen_by_id "menza" run.2).1
     = (get_canteen_by_id "menza" Scenario.store0).1.
Proof.
  intros data run.
  assert ("menza" ≠ "nova") as Hne by discriminate.
  split; [exact Hne|].
  destruct (added_canteen_is_read_back "nova" data Scenario.store0)
    as (_ & H2 & _ & _ & H5 & _).
  split; [exact H2|exact (H5 "menza" Hne)].
Defined.

(** X15: [update_canteen] returns [None] and writes nothing when no canteen
    has the id; otherwise it returns the canteen with the fields of the
    update replaced, stores it with its hours cut to whole minutes, and
    leaves the other canteens, the students and every reservation as they
    were: a change of working hours or capacity cancels nothing. *)
Theorem update_canteen_leaves_reservations (canteen_id : string)
    (data : CanteenUpdate.t) (s : Store) :
  let run := update_canteen canteen_id data s in
  (canteens_table s !! canteen_id = None -> run = (Ok None, s))
  /\ (forall c,
        canteens_table s !! canteen_id = Some c ->
        let updated := model_copy (with_id canteen_id c) data in
        run.1 = Ok (Some updated)
        /\ (get_canteen_by_id canteen_id run.2).1
           = Ok (Some (dump_canteen canteen_id updated)))
  /\ (forall key, key ≠ canteen_id ->
        (get_canteen_by_id key run.2).1 = (get_canteen_by_id key s).1)
  /\ students_table run.2 = students_table s
  /\ reservations_table run.2 = reservations_table s
  /\ restrictions run.2 = restrictions s.
Proof.
  intros run. subst run. rewrite update_canteen_run.
  destruct (canteens_table s !! canteen_id) as [c|] eqn:Hc.
  - cbn [fst snd set_canteens students_table reservations_table
         restrictions].
    split; [by intros [=]|]. split; [|split; [|by repeat split]].
    + intros c' [= <-]. split; [done|].
      unfold get_canteen_by_id, gets. cbn. by rewrite lookup_insert_eq.
    + intros key Hne. unfold get_canteen_by_id, gets. cbn.
      by rewrite lookup_insert_ne.
  - split; [done|]. split; [by intros c [=]|]. by repeat split.
Qed.

Lemma update_canteen_leaves_reservations_witness :
  let data := CanteenUpdate.mk None None (Some 0) (Some []) in
  let run := update_canteen "menza" data Bookings.lunch2 in
  canteens_table Bookings.lunch2 !! "menza"
  = Some Scenario.menza
  /\ run.1 = Ok (Some (model_copy (with_id "menza" Scenario.menza) data))
  /\ reservations_table run.2 = reservations_table Bookings.lunch2.
Proof.
  intros data run.
  assert (canteens_table Bookings.lunch2 !! "menza" = Some Scenario.menza)
    as Hc by (vm_compute; reflexivity).
  split; [exact Hc|].
  destruct (update_canteen_leaves_reservations "menza" data Bookings.lunch2)
    as (_ & H2 & _ & _ & H5 & _).
  split; [exact (proj1 (H2 _ Hc))|exact H5].
Defined.

Lemma lookup_delete_all items table key :
  delete_all items table !! key =
  if decide (Exists (fun res => Reservation.id res = Some key) items)
  then None else table !! key.
Proof.
  revert table. induction items as [|res rest IH]; intros table.
  - cbn. rewrite decide_False; [done|]. by intros H%Exists_nil.
  - change (delete_all (res :: rest) table)
      with (delete_all rest
              (match Reservation.id res with
               | Some k => delete k table
               | None => table
               end)).
    rewrite IH. clear IH.
    set (P := fun res => Reservation.id res = Some key).
    destruct (decide (P res)) as [Hid|Hn].
    + rewrite (decide_True (P:=Exists P (res :: rest)))
        by (apply Exists_cons; by left).
      case_decide; [done|]. unfold P in Hid. rewrite Hid.
      apply lookup_delete_eq.
    + assert (Exists P (res :: rest) <-> Exists P rest) as Hiff.
      { rewrite Exists_cons. tauto. }
      rewrite (decide_ext _ _ _ _ Hiff).
      case_decide; [done|].
      destruct (Reservation.id res) as [k|] eqn:Hid; [|done].
      rewrite lookup_delete_ne; [done|]. intros ->. by apply Hn.
Qed.

Lemma delete_loop_run items count s :
  delete_loop items count s =
  (Ok (count + Z.of_nat (length items)),
   set_reservations (delete_all items (reservations_table s)) s).
Proof.
  revert count s. induction items as [|res rest IH]; intros count s.
  - cbn. rewrite Z.add_0_r. by destruct s.
  - cbn [delete_loop]. rewrite bind_run.
    unfold delete_reservation_item.
    destruct (Reservation.id res) as [k|] eqn:Hid.
    + unfold modify. rewrite IH.
      change (delete_all (res :: rest) (reservations_table s))
        with (delete_all rest
                (match Reservation.id res with
                 | Some k => delete k (reservations_table s)
                 | None => reservations_table s
                 end)).
      rewrite Hid. cbn [length]. f_equal. f_equal. lia.
    + cbn [mret M_ret]. rewrite IH.
      change (delete_all (res :: rest) (reservations_table s))
        with (delete_all rest
                (match Reservation.id res with
                 | Some k => delete k (reservations_table s)
                 | None => reservations_table s
                 end)).
      rewrite Hid. cbn [length]. f_equal. f_equal. lia.
Qed.

(** The reservations [delete_reservations_by_canteen_id] walks through. *)
Lemma elem_of_active_today today canteen_id s res :
  res ∈ filter (fun r => Some (Reservation.canteenId r) = Some canteen_id
                         /\ Reservation.status r = Active
                         /\ Reservation.date r = today)
          (scan_reservations s)
  <-> exists key it, reservations_table s !! key = Some it
                     /\ res = parse_item key it
                     /\ removed_with today canteen_id it.
Proof.
  rewrite list_elem_of_filter, elem_of_scan_reservations.
  unfold removed_with. split.
  - intros [([= ?] & ? & ?) (key & it & Hl & ->)]. by exists key, it.
  - intros (key & it & Hl & -> & ? & ? & ?).
    split; [by repeat split; cbn; f_equal|by eauto].
Qed.

Lemma delete_reservations_run today canteen_id s :
  delete_reservations_by_canteen_id today canteen_id s =
  let items :=
    filter (fun r => Some (Reservation.canteenId r) = Some canteen_id
                     /\ Reservation.status r = Active
                     /\ Reservation.date r = today)
      (scan_reservations s) in
  (Ok (Z.of_nat (length items)),
   set_reservations (delete_all items (reservations_table s)) s).
Proof.
  unfold delete_reservations_by_canteen_id. rewrite bind_run.
  unfold get_active_reservations_by_canteen_and_date, gets.
  by rewrite delete_loop_run, Z.add_0_l.
Qed.

Lemma lookup_after_delete today canteen_id s key :
  delete_all
    (filter (fun r => Some (Reservation.canteenId r) = Some canteen_id
                      /\ Reservation.status r = Active
                      /\ Reservation.date r = today)
       (scan_reservations s))
    (reservations_table s) !! key
  = match reservations_table s !! key with
    | Some it => if decide (removed_with today canteen_id it) then None
                 else Some it
    | None => None
    end.
Proof.
  rewrite lookup_delete_all.
  destruct (reservations_table s !! key) as [it|] eqn:Hit.
  - case_decide as Hex.
    + apply Exists_exists in Hex as (res & Hin & Hid).
      apply elem_of_active_today in Hin as (k & it' & Hl & -> & Hrm).
      injection Hid as ->. assert (it' = it) as -> by congruence.
      by rewrite decide_True.
    + case_decide as Hrm; [|done]. exfalso. apply Hex, Exists_exists.
      exists (parse_item key it). split; [|done].
      apply elem_of_active_today. by exists key, it.
  - by case_decide.
Qed.

Lemma delete_canteen_run today canteen_id s :
  delete_canteen today canteen_id s =
  (Ok true,
   mk_store (students_table s) (delete canteen_id (canteens_table s))
     (delete_all
        (filter (fun r => Some (Reservation.canteenId r) = Some canteen_id
                          /\ Reservation.status r = Active
                          /\ Reservation.date r = today)
           (scan_reservations s))
        (reservations_table s))
     (restrictions s) (put_log s)).
Proof.
  unfold delete_canteen.
  rewrite bind_run. unfold modify at 1. rewrite bind_run.
  by rewrite delete_reservations_run.
Qed.

(** X16: [delete_canteen] removes the canteen and, of its reservations, the
    Active ones dated today and no others: reservations of other dates,
    cancelled ones and those of other canteens stay stored, and students are
    untouched.  It returns [True] whether the canteen existed or not. *)
Theorem delete_canteen_removes_todays_active (today : Z)
    (canteen_id : string) (s : Store) :
  let run := delete_canteen today canteen_id s in
  run.1 = Ok true
  /\ (get_canteen_by_id canteen_id run.2).1 = Ok None
  /\ canteens_table run.2 = delete canteen_id (canteens_table s)
  /\ (forall key it,
        reservations_table s !! key = Some it ->
        (removed_with today canteen_id it ->
         reservations_table run.2 !! key = None)
        /\ (~ removed_with today canteen_id it ->
            reservations_table run.2 !! key = Some it))
  /\ (forall key,
        reservations_table s !! key = None ->
        reservations_table run.2 !! key = None)
  /\ students_table run.2 = students_table s.
Proof.
  intros run. subst run. rewrite delete_canteen_run.
  cbn [fst snd canteens_table reservations_table students_table].
  split; [done|]. split.
  { unfold get_canteen_by_id, gets. cbn [fst canteens_table].
    by rewrite lookup_delete_eq. }
  split; [done|].
  split; [|split; [|done]].
  - intros key it Hit. rewrite lookup_after_delete, Hit.
    split; intros Hrm; [by rewrite decide_True|by rewrite decide_False].
  - intros key Hnone. by rewrite lookup_after_delete, Hnone.
Qed.

Lemma delete_canteen_removes_todays_active_witness :
  let s := Bookings.lunch2 in
  let it := Item.mk "marko" "menza" 739001 (12, 0) 30 Active in
  reservations_table s !! "l1" = Some it
  /\ removed_with 739001 "menza" it
  /\ ~ removed_with 739000 "menza" it
  /\ reservations_table (delete_canteen 739001 "menza" s).2 !! "l1" = None
  /\ reservations_table (delete_canteen 739000 "menza" s).2 !! "l1"
     = Some it.
Proof.
  intros s it.
  assert (reservations_table s !! "l1" = Some it)
    as Hit by (vm_compute; reflexivity).
  assert (removed_with 739001 "menza" it) as H1 by (by vm_compute).
  assert (~ removed_with 739000 "menza" it) as H2
    by (intros (_ & _ & Hd); vm_compute in Hd; discriminate).
  split; [exact Hit|]. split; [exact H1|]. split; [exact H2|].
  destruct (delete_canteen_removes_todays_active 739001 "menza" s)
    as (_ & _ & _ & Ha & _).
  destruct (delete_canteen_removes_todays_active 739000 "menza" s)
    as (_ & _ & _ & Hb & _).
  split; [exact (proj1 (Ha "l1" it Hit) H1)|exact (proj2 (Hb "l1" it Hit) H2)].
Defined.

Lemma size_filter_complement {A} (P : string * A -> Prop)
    `{!forall x, Decision (P x)} (m : gmap string A) :
  (size (filter P m) + size (filter (fun kv => ~ P kv) m) = size m)%nat.
Proof.
  rewrite <- map_size_disj_union by apply map_disjoint_filter_complement.
  by rewrite map_filter_union_complement.
Qed.

Lemma size_delete_all items table :
  NoDup items ->
  (forall res, res ∈ items ->
     exists key it, table !! key = Some it /\ res = parse_item key it) ->
  (size (delete_all items table) + length items = size table)%nat.
Proof.
  revert table. induction items as [|res rest IH]; intros table Hnd Hall.
  - cbn. lia.
  - apply NoDup_cons in Hnd as [Hnotin Hnd].
    destruct (Hall res) as (key & it & Hl & ->); [by left|].
    change (delete_all (parse_item key it :: rest) table)
      with (delete_all rest (delete key table)).
    assert (size (delete_all rest (delete key table)) + length rest
            = size (delete key table))%nat as Hrest.
    { apply IH; [done|]. intros res Hin.
      destruct (Hall res) as (k & it' & Hl' & ->); [by right|].
      exists k, it'. split; [|done].
      rewrite lookup_delete_ne; [done|]. intros ->.
      assert (it' = it) as -> by congruence. done. }
    rewrite (map_size_delete_Some key table) in Hrest by eauto.
    assert (size table ≠ 0)%nat.
    { intros Hz. apply map_size_empty_inv in Hz. subst table.
      by rewrite lookup_empty in Hl. }
    cbn [length]. lia.
Qed.

(** X17: [delete_reservations_by_canteen_id] returns the number of
    reservations it has deleted: the Active reservations of the canteen
    dated today, each counted once. *)
Theorem delete_reservations_counts (today : Z) (canteen_id : string)
    (s : Store) :
  let run := delete_reservations_by_canteen_id today canteen_id s in
  exists n : nat,
    run.1 = Ok (Z.of_nat n)
    /\ (size (reservations_table run.2) + n
        = size (reservations_table s))%nat
    /\ n = size (filter (fun kv => removed_with today canteen_id kv.2)
                   (reservations_table s))
    /\ canteens_table run.2 = canteens_table s
    /\ students_table run.2 = students_table s.
Proof.
  intros run. subst run. rewrite delete_reservations_run. cbn zeta.
  set (items := filter _ (scan_reservations s)).
  exists (length items). cbn [fst snd set_reservations reservations_table
                             canteens_table students_table].
  assert ((size (delete_all items (reservations_table s)) + length items
           = size (reservations_table s))%nat) as Hsize.
  { apply size_delete_all.
    - apply NoDup_filter, NoDup_scan_reservations.
    - intros res Hin. apply elem_of_active_today in Hin
        as (key & it & Hl & -> & _). eauto. }
  split; [done|]. split; [done|]. split; [|done].
  assert (delete_all items (reservations_table s)
          = filter (fun kv => ~ removed_with today canteen_id kv.2)
              (reservations_table s)) as Heq.
  { apply map_eq. intros key. subst items.
    rewrite lookup_after_delete.
    destruct (reservations_table s !! key) as [it|] eqn:Hit.
    - case_decide as Hrm.
      + symmetry. apply map_lookup_filter_None. right.
        intros it' Hit' Hn. cbn in Hn. apply Hn. congruence.
      + symmetry. by apply map_lookup_filter_Some.
    - symmetry. apply map_lookup_filter_None. by left. }
  rewrite Heq in Hsize.
  pose proof (size_filter_complement
                (fun kv : string * Item.t =>
                   removed_with today canteen_id kv.2)
                (reservations_table s)) as Hc.
  cbn beta in Hc. lia.
Qed.
End canteens.

(** ** Clearing the tables *)

Section clearing.
Import DynamoRepository DynamoRepositoryAdmin.

Lemma delete_keys_empty {A} (items : list (string * A))
    (table : gmap string A) :
  (forall key, is_Some (table !! key) -> key ∈ items.*1) ->
  foldl (fun t kv => delete kv.1 t) table items = ∅.
Proof.
  revert table. induction items as [|[k a] rest IH]; intros table Hkeys.
  - cbn. apply map_empty. intros key.
    destruct (table !! key) eqn:Hl; [|done].
    assert (key ∈ ([] : list (string * A)).*1) as Hin by (apply Hkeys; eauto).
    by apply elem_of_nil in Hin.
  - cbn [foldl fst]. apply IH. intros key [x Hx].
    apply lookup_delete_Some in Hx as [Hne Hx].
    assert (key ∈ ((k, a) :: rest).*1) as Hin by (apply Hkeys; eauto).
    rewrite fmap_cons in Hin. cbn [fst] in Hin.
    apply elem_of_cons in Hin as [->|Hin]; [done|exact Hin].
Qed.

Lemma clear_table_empty {A} (table : gmap string A) :
  clear_table table = ∅.
Proof.
  unfold clear_table. apply delete_keys_empty. intros key [x Hx].
  apply list_elem_of_fmap. exists (key, x). split; [done|].
  by apply elem_of_map_to_list.
Qed.

(** X18: after [clear_all] the three tables hold nothing: no student, canteen
    or reservation is found under any id, by email or in a listing. *)
Theorem clear_all_empties_the_tables (s : Store) :
  let run := clear_all s in
  run.1 = Ok tt
  /\ students_table run.2 = ∅
  /\ canteens_table run.2 = ∅
  /\ reservations_table run.2 = ∅
  /\ (forall id, (get_student_by_id id run.2).1 = Ok None
                 /\ (get_canteen_by_id id run.2).1 = Ok None
                 /\ (get_reservation_by_id id run.2).1 = Ok None)
  /\ (forall email, (get_student_by_email email run.2).1 = Ok None)
  /\ (get_all_canteens run.2).1 = Ok []
  /\ (forall id, (get_reservations_by_student_id id run.2).1 = Ok []).
Proof.
  intros run.
  assert (run = (Ok tt, mk_store ∅ ∅ ∅ (restrictions s) (put_log s)))
    as ->.
  { subst run. unfold clear_all, modify. rewrite bind_run.
    cbv beta iota. rewrite bind_run. cbv beta iota.
    cbn [set_students set_canteens set_reservations students_table
         canteens_table reservations_table restrictions put_log].
    by rewrite !clear_table_empty. }
  cbn [fst snd students_table canteens_table reservations_table].
  split; [done|]. split; [done|]. split; [done|]. split; [done|].
  split.
  { intros id. unfold get_student_by_id, get_canteen_by_id,
      get_reservation_by_id, gets.
    cbn [fst students_table canteens_table reservations_table].
    by rewrite !lookup_empty. }
  split.
  { intros email. unfold get_student_by_email, students_by_email, gets.
    cbn [fst students_table]. by rewrite map_to_list_empty. }
  split.
  { unfold get_all_canteens, gets. cbn [fst canteens_table].
    by rewrite map_to_list_empty. }
  intros id. unfold get_reservations_by_student_id, scan_reservations, gets.
  cbn [fst reservations_table]. by rewrite map_to_list_empty.
Qed.

End clearing.

(** ** The indexes after a cancellation *)

Section cancelled.
Import DynamoRepository ReservationService.

(** X19: after a student has cancelled a reservation it is in no list of
    Active reservations of a canteen and date, every other reservation of
    those lists is still there, and it is still listed among the student's
    reservations, with status Cancelled. *)
Theorem cancelled_leaves_the_active_lists (reservation_id student_id : string)
    (s : Store) (r' : Reservation.t)
    (Hcancelled :
       (cancel_reservation reservation_id student_id s).1 = Ok (Some r')) :
  let s' := (cancel_reservation reservation_id student_id s).2 in
  (forall canteen_id date,
     exists before after,
       (get_active_reservations_by_canteen_and_date canteen_id date s).1
       = Ok before
       /\ (get_active_reservations_by_canteen_and_date canteen_id date s').1
          = Ok after
       /\ forall r, r ∈ after
                    <-> r ∈ before
                        /\ Reservation.id r ≠ Some reservation_id)
  /\ (exists mine,
        (get_reservations_by_student_id student_id s').1 = Ok mine
        /\ r' ∈ mine)
  /\ Reservation.id r' = Some reservation_id
  /\ Reservation.status r' = Cancelled.
Proof.
  intros s'. subst s'. revert Hcancelled.
  rewrite (service_cancel_run reservation_id student_id s).
  destruct (reservations_table s !! reservation_id) as [it|] eqn:Hit;
    [|done].
  destruct (decide (Item.studentId it ≠ student_id)) as [|Heq]; [done|].
  destruct (decide (Item.status it = Cancelled)) as [|Hst]; [done|].
  cbn [fst snd]. intros [= <-].
  assert (Item.studentId it = student_id) as Hsid
    by (by destruct (decide (Item.studentId it = student_id))).
  split; [|split; [|done]].
  - intros canteen_id date.
    unfold get_active_reservations_by_canteen_and_date, gets.
    eexists _, _. split; [reflexivity|]. split; [reflexivity|].
    intros r. rewrite !list_elem_of_filter, elem_of_scan_store_put.
    split.
    + intros [(Hc & Hact & Hd) [->|[Hin Hne]]].
      * by cbn in Hact.
      * done.
    + intros [[Hp Hin] Hne]. split; [done|]. by right.
  - unfold get_reservations_by_student_id, gets. eexists. split;
      [reflexivity|].
    apply list_elem_of_filter. split; [by cbn|].
    apply elem_of_scan_store_put. left.
    by destruct it as [? ? ? [? ?] ? ?].
Qed.

Lemma cancelled_leaves_the_active_lists_witness :
  let run := cancel_reservation "r1" "marko" Scenario.store1 in
  let r' := set_status Cancelled
              (parse_item "r1" (Item.mk "marko" "menza" 739001 (13, 0) 30
                                  Active)) in
  run.1 = Ok (Some r')
  /\ (get_active_reservations_by_canteen_and_date (Some "menza") 739001
        Scenario.store1).1 = Ok [parse_item "r1"
                                   (Item.mk "marko" "menza" 739001 (13, 0)
                                      30 Active)]
  /\ Reservation.status r' = Cancelled.
Proof.
  intros run r'.
  assert (run.1 = Ok (Some r')) as Hc by (vm_compute; reflexivity).
  split; [exact Hc|]. split; [vm_compute; reflexivity|].
  destruct (cancelled_leaves_the_active_lists "r1" "marko" Scenario.store1
              r' Hc) as (_ & _ & _ & Hs).
  exact Hs.
Defined.

End cancelled.

(** ** A deleted canteen *)

Section deleted.
Import DynamoRepository DynamoRepositoryAdmin ReservationService.

Ltac in_list := apply list_elem_of_In; cbn; auto 10.

(** X20: once [delete_canteen] has run, no reservation can be created for
    the canteen: [create_reservation] raises and writes nothing, and the
    error is CanteenNotFound whenever the date, the duration, the minute and
    the student of the request pass their checks. *)
Theorem deleted_canteen_takes_no_reservation {str_lower : Lower}
    (today today' : Z)
    (canteen_id new_id : string) (p : CreateReservationDTO.t) (s : Store)
    (Hfor : CreateReservationDTO.canteenId p = canteen_id) :
  let s' := (delete_canteen today canteen_id s).2 in
  exists e,
    create_reservation today' new_id p s' = (Raise e, s')
    /\ e ∈ [PastDate; BadDuration; BadMinute; StudentNotFound;
            CanteenNotFound]
    /\ (today' <= CreateReservationDTO.date p ->
        CreateReservationDTO.duration p ∈ [30; 60] ->
        minute (CreateReservationDTO.time p) ∈ [0; 30] ->
        is_Some (students_table s !! CreateReservationDTO.studentId p) ->
        e = CanteenNotFound).
Proof.
  intros s'.
  assert (canteens_table s' !! CreateReservationDTO.canteenId p = None)
    as Hgone.
  { subst s'. rewrite delete_canteen_run, Hfor.
    cbn [snd canteens_table]. apply lookup_delete_eq. }
  assert (students_table s' = students_table s) as Hstudents.
  { subst s'. by rewrite delete_canteen_run. }
  clearbody s'.
  rewrite (create_reservation_run today' new_id p s'), Hgone, Hstudents.
  destruct (CreateReservationDTO.date p <? today') eqn:Hdate.
  { exists PastDate. split; [done|]. split; [in_list|]. lia. }
  destruct (decide (CreateReservationDTO.duration p ∈ [30; 60]))
    as [Hdur|Hdur].
  2:{ rewrite bool_decide_eq_false_2 by done.
      exists BadDuration. split; [done|]. split; [in_list|]. tauto. }
  rewrite bool_decide_eq_true_2 by done. cbn [negb].
  destruct (decide (minute (CreateReservationDTO.time p) ∈ [0; 30]))
    as [Hmin|Hmin].
  2:{ rewrite bool_decide_eq_false_2 by done.
      exists BadMinute. split; [done|]. split; [in_list|]. tauto. }
  rewrite bool_decide_eq_true_2 by done. cbn [negb].
  destruct (students_table s !! CreateReservationDTO.studentId p)
    as [st|] eqn:Hst.
  - exists CanteenNotFound. split; [done|]. split; [in_list|]. done.
  - exists StudentNotFound. split; [done|]. split; [in_list|].
    intros _ _ _ [? [=]].
Qed.

Lemma deleted_canteen_takes_no_reservation_witness :
  let p := Scenario.request "marko" 13 0 30 in
  let s' := (delete_canteen Scenario.today "menza" Scenario.store0).2 in
  (create_reservation Scenario.today "r1" p Scenario.store0).1
  = Ok (new_reservation "r1" p)
  /\ exists e,
       create_reservation Scenario.today "r1" p s' = (Raise e, s').
Proof.
  intros p s'. split; [vm_compute; reflexivity|].
  destruct (deleted_canteen_takes_no_reservation Scenario.today
              Scenario.today "menza" "r1" p Scenario.store0 eq_refl)
    as (e & He & _).
  exists e. exact He.
Defined.

End deleted.
